(** * Sustainability simulator (app.py): a shallow embedding and its properties

    The script app.py is a Streamlit page: every change of an input widget
    re-runs the whole module from the top, so one run is a function of the
    current widget values.  The embedding keeps that shape.

    Conventions of the embedding.
    - A Python [int] is a [Z]; a Python [float] is a rational [Q].  Rational
      arithmetic is exact, so equalities between figures are stated with
      [==] (equality of fractions) and no rounding of binary floating point
      is modelled.  An [int] used in float arithmetic is injected with
      [inject_Z].  A figure of the page and its exact counterpart differ by
      rounding in the last places only; where a branch is taken on such a
      figure the two can part at the edge of a band, so the recycling grade
      is also modelled on binary64 floats, in module [F64], and the grade of
      the page is stated there.
    - A Python exception is a constructor of [exn]; code that can raise
      returns a [result].  [st.stop()] raises Streamlit's StopException.
    - A module-level name that is bound only on some paths
      (co2_after_kg, co2_reduced_kg) is read through an [option]: [None]
      is "not in locals()".
    - A dict literal is an association list with string keys; indexing a
      dict or a list is fallible as it is in Python. *)

From Stdlib Require Import QArith Qround ZArith Bool String List Lia Lqa.
From Stdlib Require PrimFloat FloatOps FloatAxioms SpecFloat.
Import ListNotations.

Open Scope string_scope.
Open Scope Z_scope.
Open Scope Q_scope.

(** ** Exceptions and results *)

Inductive exn : Type :=
| KeyError (key : string)
| IndexError
| ZeroDivisionError
| StopException (message : string)
| StreamlitAPIException (message : string).

Inductive result (A : Type) : Type :=
| Ok (a : A)
| Raise (e : exn).

Arguments Ok {A} a.
Arguments Raise {A} e.

Definition bind {A B : Type} (c : result A) (k : A -> result B) : result B :=
  match c with
  | Ok a => k a
  | Raise e => Raise e
  end.

Notation "x <- c ;; k" := (bind c (fun x => k))
  (at level 61, c at next level, right associativity).
Notation "' p <- c ;; k" := (bind c (fun x => let p := x in k))
  (at level 61, p pattern, c at next level, right associativity).

(** [d[key]] on a dict literal. *)
Definition dict (V : Type) : Type := list (string * V).

Fixpoint dict_get {V : Type} (d : dict V) (key : string) : result V :=
  match d with
  | [] => Raise (KeyError key)
  | (k, v) :: rest => if String.eqb k key then Ok v else dict_get rest key
  end.

(** [l[i]] on a list, for a literal index [i >= 0]. *)
Definition list_get {A : Type} (l : list A) (i : nat) : result A :=
  match nth_error l i with
  | Some a => Ok a
  | None => Raise IndexError
  end.

(** Float division [a / b]. *)
Definition py_div (a b : Q) : result Q :=
  if Qeq_bool b 0 then Raise ZeroDivisionError else Ok (a / b).

(** Comparisons of the conditionals. *)
Definition Qleb (a b : Q) : bool := Qle_bool a b.
Definition Qltb (a b : Q) : bool := negb (Qle_bool b a).

(** ** Constants (app.py, lines 9-22) *)

Definition DEFAULT_PER_CAPITA_WATER_USAGE : Z := 305.
Definition ENERGY_PER_CUBIC_METER_WATER_SUPPLY : Q := 0.5.
Definition ENERGY_TO_HEAT_1L_WATER : Q := 0.029.
Definition CO2_PER_KWH : Q := 0.4.
Definition CO2_ABSORBED_PER_TREE_PER_YEAR : Z := 21.

Definition BASE_COST_PER_KWH : dict (list Q) :=
  [("저압", [78.3; 147.3; 215.6])].
Definition TIER_THRESHOLDS : list Z := [200; 400]%Z.
Definition VAT_RATE : Q := 0.1.
Definition ELECTRICITY_FUND_RATE : Q := 0.037.

Definition CO2_EMISSION_FACTOR_G_PER_KWH : Z := 409.

(** ** calculate_monthly_bill (lines 25-45) *)

(** The local [base_fee = 0] of line 40. *)
Definition base_fee : Q := 0.

(** The default of the keyword argument [contract_type]. *)
Definition default_contract_type : string := "저압".

(** Returns the tuple (total_bill, energy_charge, electricity_fund, vat). *)
Definition calculate_monthly_bill (kwh_usage : Q) (contract_type : string)
  : result (Q * Q * Q * Q) :=
  tier_costs <- dict_get BASE_COST_PER_KWH contract_type ;;
  let tier_thresholds := TIER_THRESHOLDS in
  let energy_charge := 0 in
  t0 <- list_get tier_thresholds 0 ;;
  energy_charge <-
    (if Qleb kwh_usage (inject_Z t0) then
       c0 <- list_get tier_costs 0 ;;
       Ok (energy_charge + kwh_usage * c0)
     else
       t1 <- list_get tier_thresholds 1 ;;
       if Qleb kwh_usage (inject_Z t1) then
         c0 <- list_get tier_costs 0 ;;
         let energy_charge := energy_charge + inject_Z t0 * c0 in
         c1 <- list_get tier_costs 1 ;;
         Ok (energy_charge + (kwh_usage - inject_Z t0) * c1)
       else
         c0 <- list_get tier_costs 0 ;;
         let energy_charge := energy_charge + inject_Z t0 * c0 in
         c1 <- list_get tier_costs 1 ;;
         let energy_charge := energy_charge + inject_Z (t1 - t0) * c1 in
         c2 <- list_get tier_costs 2 ;;
         Ok (energy_charge + (kwh_usage - inject_Z t1) * c2)) ;;
  let electricity_fund := energy_charge * ELECTRICITY_FUND_RATE in
  let vat := (energy_charge + electricity_fund) * VAT_RATE in
  let total_bill := base_fee + energy_charge + electricity_fund + vat in
  Ok (total_bill, energy_charge, electricity_fund, vat).

(** The components of the returned tuple. *)
Definition bill_total (b : Q * Q * Q * Q) : Q := let '(t, _, _, _) := b in t.
Definition bill_energy_charge (b : Q * Q * Q * Q) : Q := let '(_, e, _, _) := b in e.
Definition bill_fund (b : Q * Q * Q * Q) : Q := let '(_, _, f, _) := b in f.
Definition bill_vat (b : Q * Q * Q * Q) : Q := let '(_, _, _, v) := b in v.

(** Lines 40-45: the tuple as a function of the energy charge. *)
Definition bill_of_charge (e : Q) : Q * Q * Q * Q :=
  (base_fee + e + e * ELECTRICITY_FUND_RATE
     + (e + e * ELECTRICITY_FUND_RATE) * VAT_RATE,
   e, e * ELECTRICITY_FUND_RATE, (e + e * ELECTRICITY_FUND_RATE) * VAT_RATE).

(** ** count_months (lines 47-48) *)

(** A [datetime.date]: its three integer attributes. *)
Record date : Type := mkdate { year : Z; month : Z; day : Z }.

Definition is_leap (y : Z) : bool :=
  ((y mod 4 =? 0) && negb (y mod 100 =? 0) || (y mod 400 =? 0))%Z.

Definition days_in_month (y m : Z) : Z :=
  (if m =? 2 then (if is_leap y then 29 else 28)
   else if (m =? 4) || (m =? 6) || (m =? 9) || (m =? 11) then 30
   else 31)%Z.

(** The values the constructor [datetime.date(y, m, d)] accepts. *)
Definition valid_date (d : date) : bool :=
  ((1 <=? year d) && (year d <=? 9999) &&
   (1 <=? month d) && (month d <=? 12) &&
   (1 <=? day d) && (day d <=? days_in_month (year d) (month d)))%Z.

(** [a > b] on dates: the order of the triples (year, month, day). *)
Definition date_gtb (a b : date) : bool :=
  ((year b <? year a) ||
   ((year a =? year b) &&
    ((month b <? month a) ||
     ((month a =? month b) && (day b <? day a)))))%Z.

Definition date_le (a b : date) : Prop := date_gtb a b = false.

Definition count_months (start_date end_date : date) : Z :=
  ((year end_date - year start_date) * 12
   + (month end_date - month start_date) + 1)%Z.

(** ** The electricity analyser (lines 76-91, the body of the button) *)

Record electricity : Type := mkelectricity {
  num_months : Z;
  total_saved_kwh : Q;
  saved_percent : Q;
  total_saved_won : Q;
  co2_before_kg : Q;
  co2_after_kg : Q;
  total_co2_saved_kg : Q }.

Definition electricity_block (start_date end_date : date)
    (usage_before usage_after : Q) : result electricity :=
  let num_months := count_months start_date end_date in
  let saved_kwh_per_month := usage_before - usage_after in
  let total_saved_kwh := saved_kwh_per_month * inject_Z num_months in
  ratio <- py_div saved_kwh_per_month usage_before ;;
  let saved_percent := ratio * 100 in
  ' (original_bill, _, _, _) <-
      calculate_monthly_bill usage_before default_contract_type ;;
  ' (reduced_bill, _, _, _) <-
      calculate_monthly_bill usage_after default_contract_type ;;
  let saved_won_per_month := original_bill - reduced_bill in
  let total_saved_won := saved_won_per_month * inject_Z num_months in
  let co2_before_kg :=
    (usage_before * inject_Z CO2_EMISSION_FACTOR_G_PER_KWH
     * inject_Z num_months) / 1000 in
  let co2_after_kg :=
    (usage_after * inject_Z CO2_EMISSION_FACTOR_G_PER_KWH
     * inject_Z num_months) / 1000 in
  let total_co2_saved_kg := co2_before_kg - co2_after_kg in
  Ok (mkelectricity num_months total_saved_kwh saved_percent total_saved_won
        co2_before_kg co2_after_kg total_co2_saved_kg).

(** ** Number inputs *)

(** [st.number_input(label, min_value, max_value, value)].  Streamlit
    checks the default [value] against the bounds when the widget is built
    and raises if it lies outside; otherwise the call returns what the user
    has entered, which the widget keeps within the bounds. *)
Definition number_input (min_value : Q) (max_value : option Q)
    (value entered : Q) : result Q :=
  if Qltb value min_value then
    Raise (StreamlitAPIException "value below min_value")
  else
    match max_value with
    | Some bound =>
        if Qltb bound value then
          Raise (StreamlitAPIException "value above max_value")
        else Ok entered
    | None => Ok entered
    end.

(** ** The recycling grader (lines 107-127) *)

Definition NATIONAL_RATE : Q := 69.8.

(** Returns (grade, emoji, colour).  The grades read, in order:
    low, moderate, high, very high. *)
Definition get_grade (rate : Q) : string * string * string :=
  if Qltb rate 50 then ("낮음", "🔴", "#ff4444")
  else if Qltb rate 75 then ("보통", "🟡", "#ffaa00")
  else if Qltb rate 100 then ("높음", "🟢", "#00aa00")
  else ("매우 높음", "🔵", "#0066cc").

Record recycling : Type := mkrecycling {
  recycling_rate : Q;
  relative_rate : Q;
  grade : string;
  emoji : string;
  color : string }.

(** The block under [if waste_amount > 0:]; there is no else branch, so
    nothing is computed or shown otherwise.  The division is by the
    guarded, hence non-zero, [waste_amount].  The figures are the exact
    ones; the grade the page shows is that of [F64.recycling_block], which
    can be the lower neighbour when the exact relative rate sits on 50, 75
    or 100. *)
Definition recycling_block (waste_amount recycling_amount : Q)
  : option recycling :=
  if Qltb 0 waste_amount then
    let recycling_rate := (recycling_amount / waste_amount) * 100 in
    let relative_rate := (recycling_rate / NATIONAL_RATE) * 100 in
    let '(grade, emoji, color) := get_grade relative_rate in
    Some (mkrecycling recycling_rate relative_rate grade emoji color)
  else None.

(** ** Display of a figure *)

(** The argument of an [st.metric]: an f-string made of one number
    formatted [{x:,.nf}] between two pieces of literal text. *)
Record fstring : Type := mkfstring {
  fs_before : string;
  fs_number : Q;
  fs_digits : nat;
  fs_text : string }.

Record metric : Type := mkmetric { metric_label : string; metric_body : fstring }.

(** Rounding to the nearest integer, ties to even.  It is applied to the
    exact figure: the page formats the binary64 figure, which can fall on
    the other side when the exact figure is a tie. *)
Definition round_half_even (q : Q) : Z :=
  let f := Qfloor q in
  let r := q - inject_Z f in
  if Qltb r 0.5 then f
  else if Qltb 0.5 r then (f + 1)%Z
  else if Z.even f then f else (f + 1)%Z.

(** The number an f-string shows, in units of its last digit:
    [shown] of [{x:.2f}] is 89042 when the text reads 890.42. *)
Definition shown (s : fstring) : Z :=
  round_half_even (fs_number s * inject_Z (10 ^ Z.of_nat (fs_digits s))).

(** ** The water simulator (lines 152-179) *)

(** The names bound in the branch [daily_saving > 0]. *)
Record water_figures : Type := mkwater_figures {
  hot_water_saving_liters : Q;
  cold_water_supply_saving_cubic_meters : Q;
  energy_saved_from_hot_water : Q;
  energy_saved_from_cold_supply : Q;
  total_energy_saved_kwh : Q;
  co2_reduced_kg : Q;
  equivalent_trees : Q }.

(** What the else branch shows with [st.info]. *)
Definition water_info_message : string := "평균 사용량보다 적게 사용해보세요.".

Record water : Type := mkwater {
  daily_saving : Z;
  annual_saving_liters : Z;
  (* [inl]: the names of the first branch; [inr]: the message of the else
     branch, where none of them is bound *)
  water_branch : water_figures + string }.

Definition water_block (user_daily_water_usage : Z) : water :=
  let daily_saving :=
    (DEFAULT_PER_CAPITA_WATER_USAGE - user_daily_water_usage)%Z in
  let annual_saving_liters := (daily_saving * 365)%Z in
  mkwater daily_saving annual_saving_liters
    (if (daily_saving >? 0)%Z then
       let hot_water_saving_liters := inject_Z annual_saving_liters * 0.40 in
       let cold_water_supply_saving_cubic_meters :=
         (inject_Z annual_saving_liters * 0.60) / 1000 in
       let energy_saved_from_hot_water :=
         hot_water_saving_liters * ENERGY_TO_HEAT_1L_WATER in
       let energy_saved_from_cold_supply :=
         cold_water_supply_saving_cubic_meters
         * ENERGY_PER_CUBIC_METER_WATER_SUPPLY in
       let total_energy_saved_kwh :=
         energy_saved_from_hot_water + energy_saved_from_cold_supply in
       let co2_reduced_kg := total_energy_saved_kwh * CO2_PER_KWH in
       let equivalent_trees :=
         co2_reduced_kg / inject_Z CO2_ABSORBED_PER_TREE_PER_YEAR in
       inl (mkwater_figures hot_water_saving_liters
              cold_water_supply_saving_cubic_meters
              energy_saved_from_hot_water energy_saved_from_cold_supply
              total_energy_saved_kwh co2_reduced_kg equivalent_trees)
     else inr water_info_message).

(** Lines 174-177: the four figures shown in the first branch. *)
Definition water_metrics (annual_saving_liters : Z) (f : water_figures)
  : list metric :=
  [ mkmetric "연간 예상 물 절약량"
      (mkfstring "" (inject_Z annual_saving_liters) 0 " L");
    mkmetric "절약된 에너지 (연간)"
      (mkfstring "" (total_energy_saved_kwh f) 2 " kWh");
    mkmetric "감소된 탄소 배출량 (연간)"
      (mkfstring "" (co2_reduced_kg f) 2 " kg CO2");
    mkmetric "나무 심는 효과"
      (mkfstring "약 " (equivalent_trees f) 1 " 그루") ].

(** [co2_reduced_kg] as a module-level name: bound or not. *)
Definition co2_reduced_kg_local (w : water) : option Q :=
  match water_branch w with
  | inl f => Some (co2_reduced_kg f)
  | inr _ => None
  end.

(** ** The carbon-footprint simulator: transport (lines 185-199) *)

Definition emission_factors : dict Q :=
  [("자동차", 0.170); ("버스", 0.093); ("지하철", 0.091); ("자전거/도보", 0.056)].

(** The options of the radio button, in order: car, bus, subway,
    bicycle/on foot. *)
Definition transport_modes : list string :=
  ["자동차"; "버스"; "지하철"; "자전거/도보"].

Record transport : Type := mktransport {
  daily_co2 : Q;
  annual_co2 : Q;
  transport_metrics : list metric }.

Definition transport_block (mode : string) (distance : Q) : result transport :=
  factor <- dict_get emission_factors mode ;;
  let daily_co2 := factor * distance in
  let annual_co2 := daily_co2 * 365 in
  Ok (mktransport daily_co2 annual_co2
        [ mkmetric "💨 선택 수단의 일일 탄소 배출량"
            (mkfstring "" daily_co2 1 "g CO₂e");
          mkmetric "💨 선택 수단의 연간 탄소 배출량"
            (mkfstring "" annual_co2 1 "kg CO₂e") ]).

(** ** Waste handling (lines 201-208) *)

Definition emission : dict Z :=
  [("전면 분리수거", 203%Z); ("부분 혼합 수거", 193%Z)].

(** ** The total against the world average (lines 213-231) *)

Definition World_AVERAGE_CO2_KG : Z := 4800.

Definition water_co2_total (user_daily_water_usage : Z) : Q :=
  inject_Z user_daily_water_usage * 0.01.

(** [co2_after_kg if 'co2_after_kg' in locals() else 0] *)
Definition total_co2_electricity (co2_after_kg_local : option Q) : Q :=
  match co2_after_kg_local with
  | Some co2_after_kg => co2_after_kg
  | None => 0
  end.

(** [water_co2_total if 'co2_reduced_kg' in locals() else 0] *)
Definition total_co2_water (water_co2_total : Q)
    (co2_reduced_kg_local : option Q) : Q :=
  match co2_reduced_kg_local with
  | Some _ => water_co2_total
  | None => 0
  end.

(** [annual_co2 if 'annual_co2' in locals() else 0]: line 196 binds
    [annual_co2] on every run that reaches this line. *)
Definition total_co2_transport (annual_co2 : Q) : Q := annual_co2.

Definition fixed_emission_value (add_fixed_emission : bool) : Z :=
  if add_fixed_emission then 1300%Z else 0%Z.

Definition total_annual_co2_kg
    (total_co2_electricity total_co2_water total_co2_transport tresh_co2 : Q)
    (fixed_emission_value : Z) : Q :=
  total_co2_electricity + total_co2_water + total_co2_transport + tresh_co2
  + inject_Z fixed_emission_value.

Definition delta_kg (total_annual_co2_kg : Q) : Q :=
  inject_Z World_AVERAGE_CO2_KG - total_annual_co2_kg.

(** Lines 223-231 as one function of the four terms and the toggle:
    (total_annual_co2_kg, delta_kg). *)
Definition footprint (total_co2_electricity total_co2_water
    total_co2_transport tresh_co2 : Q) (add_fixed_emission : bool) : Q * Q :=
  let total :=
    total_annual_co2_kg total_co2_electricity total_co2_water
      total_co2_transport tresh_co2 (fixed_emission_value add_fixed_emission) in
  (total, delta_kg total).

(** ** The recycling grader on binary64 floats (lines 107-127) *)

Module F64.

Import PrimFloat.
Local Open Scope float_scope.
#[local] Set Warnings "-inexact-float".

Definition NATIONAL_RATE : float := 69.8.

Definition get_grade (rate : float) : string * string * string :=
  if rate <? 50 then ("낮음", "🔴", "#ff4444")%string
  else if rate <? 75 then ("보통", "🟡", "#ffaa00")%string
  else if rate <? 100 then ("높음", "🟢", "#00aa00")%string
  else ("매우 높음", "🔵", "#0066cc")%string.

Record recycling : Type := mkrecycling {
  recycling_rate : float;
  relative_rate : float;
  grade : string;
  emoji : string;
  color : string }.

(** [waste_amount > 0] is [0 < waste_amount]; Python raises on a float
    division by zero, which the guard excludes. *)
Definition recycling_block (waste_amount recycling_amount : float)
  : option recycling :=
  if 0 <? waste_amount then
    let recycling_rate := (recycling_amount / waste_amount) * 100 in
    let relative_rate := (recycling_rate / NATIONAL_RATE) * 100 in
    let '(grade, emoji, color) := get_grade relative_rate in
    Some (mkrecycling recycling_rate relative_rate grade emoji color)
  else None.

End F64.

(** ** One run of the script *)

(** The values of the widgets. *)
Record inputs : Type := mkinputs {
  start_date : date;
  end_date : date;
  usage_before : Q;
  usage_after : Q;
  electricity_button : bool;
  waste_amount : Q;
  recycling_amount : Q;
  user_daily_water_usage : Z;
  transport_mode : string;
  distance : Q;
  waste_mode : string;
  add_fixed_emission : bool }.

(** The values the widgets can deliver on a run that builds all of them
    (min_value, max_value, the options of a radio), and the validity of the
    two dates.  The waste amount is at least 300: the recycling input of
    line 111 has the default 300.0 and [max_value=waste_amount]. *)
Definition widget_ranges (i : inputs) : bool :=
  valid_date (start_date i) && valid_date (end_date i)
  && Qleb 1 (usage_before i) && Qleb 0 (usage_after i)
  && Qleb 300 (waste_amount i)
  && Qleb 0 (recycling_amount i) && Qleb (recycling_amount i) (waste_amount i)
  && (0 <=? user_daily_water_usage i)%Z && (user_daily_water_usage i <=? 500)%Z
  && existsb (String.eqb (transport_mode i)) transport_modes
  && Qleb 0 (distance i)
  && existsb (String.eqb (waste_mode i)) (map fst emission).

(** The module-level names at line 231. *)
Record outputs : Type := mkoutputs {
  out_electricity : option electricity;
  out_recycling : option recycling;
  out_water : water;
  out_transport : transport;
  out_tresh_co2 : Z;
  out_total_co2_electricity : Q;
  out_total_co2_water : Q;
  out_total_co2_transport : Q;
  out_fixed_emission_value : Z;
  out_total_annual_co2_kg : Q;
  out_delta_kg : Q }.

(** A figure written with two decimals: [v] is [x] to within half a unit
    of the second decimal. *)
Definition agrees_to_2_decimals (x v : Q) : Prop :=
  v - 0.005 <= x /\ x <= v + 0.005.

Definition stop_unless (ok : bool) (message : string) : result unit :=
  if ok then Ok tt else Raise (StopException message).

(** Lines 58-231.  Rendering (lines 233-283) reads [total_annual_co2_kg]
    and [delta_kg] and changes neither.  Of the number inputs only the one
    of line 111 can raise: the others have constant bounds that hold their
    defaults. *)
Definition script (i : inputs) : result outputs :=
  _ <- stop_unless (negb (date_gtb (start_date i) (end_date i)))
         "❌ 종료일은 시작일보다 앞설 수 없습니다." ;;
  _ <- stop_unless (negb (Qltb (usage_before i) (usage_after i)))
         "절약 후 사용량이 절약 전보다 많습니다." ;;
  elec <-
    (if electricity_button i then
       e <- electricity_block (start_date i) (end_date i)
              (usage_before i) (usage_after i) ;;
       Ok (Some e)
     else Ok None) ;;
  recycling_amount <-
    number_input 0 (Some (waste_amount i)) 300 (recycling_amount i) ;;
  let recyc := recycling_block (waste_amount i) recycling_amount in
  let wat := water_block (user_daily_water_usage i) in
  transp <- transport_block (transport_mode i) (distance i) ;;
  tresh_co2 <- dict_get emission (waste_mode i) ;;
  let water_total := water_co2_total (user_daily_water_usage i) in
  let e := total_co2_electricity (option_map co2_after_kg elec) in
  let w := total_co2_water water_total (co2_reduced_kg_local wat) in
  let t := total_co2_transport (annual_co2 transp) in
  let fixed := fixed_emission_value (add_fixed_emission i) in
  let total := total_annual_co2_kg e w t (inject_Z tresh_co2) fixed in
  Ok (mkoutputs elec recyc wat transp tresh_co2 e w t fixed total
        (delta_kg total)).

(** The page as it first loads, read on 2024-01-15 with the first button
    pressed: the default value of every widget. *)
Definition default_inputs : inputs :=
  mkinputs (mkdate 2024 1 1) (mkdate 2025 1 14) 400 300 true
    1000 300 100 "자동차" 10 "전면 분리수거" true.

(** ** The carbon summary (lines 236-252, the body of the button) *)

(** [max(a, b)] and [abs(a)] on floats, [int(a)] of a float (towards
    zero), each on the exact figure. *)
Definition py_max (a b : Q) : Q := if Qltb a b then b else a.
Definition py_abs (a : Q) : Q := if Qltb a 0 then - a else a.
Definition py_int (a : Q) : Z := if Qltb a 0 then Qceiling a else Qfloor a.

Definition CO2_SAVING_PER_PENGUIN_KG : Z := 100.

Record carbon_summary : Type := mkcarbon_summary {
  summary_total : metric;
  (* [inl]: the text of [st.success]; [inr]: the text of [st.warning] *)
  summary_message : fstring + fstring;
  (* the local [penguins_saved] of line 247, which nothing reads *)
  summary_penguins_saved : Q;
  summary_penguins : metric }.

Definition carbon_summary_block (total_annual_co2_kg delta_kg : Q)
  : carbon_summary :=
  let total_metric :=
    mkmetric "총 연간 탄소 배출량" (mkfstring "" total_annual_co2_kg 0 " kg CO₂e") in
  let message :=
    if Qltb 0 delta_kg then
      inl (mkfstring "세계 평균보다 약 " delta_kg 0
             " kg CO₂e 절감하고 있습니다!")
    else
      inr (mkfstring "세계 평균보다 약 " (py_abs delta_kg) 0
             " kg CO₂e 더 배출하고 있습니다.") in
  let penguins_saved :=
    py_max delta_kg 0 / inject_Z CO2_SAVING_PER_PENGUIN_KG in
  mkcarbon_summary total_metric message penguins_saved
    (mkmetric "살린 펭귄 수 추정" (mkfstring "" (delta_kg / 5000) 1 " 마리")).

(** ** The penguin pictures (lines 258-283) *)

(** Line 258, at module level. *)
Definition penguins_saved (delta_kg : Q) : Q := delta_kg / 5000.

(** A PIL image, as far as the page uses it: its size. *)
Record image : Type := mkimage { img_width : Z; img_height : Z }.

(** [img.crop((left, upper, right, lower))]. *)
Definition crop (img : image) (box : Z * Z * Z * Z) : image :=
  let '(x0, y0, x1, y1) := box in
  mkimage (x1 - x0) (y1 - y0).

(** [range(n)]. *)
Definition range (n : Z) : list Z := map Z.of_nat (seq 0 (Z.to_nat n)).

(** One [st.image(picture, width=300)] inside [with cols[column]]. *)
Record placed : Type := mkplaced {
  column : Z;
  picture : image;
  shown_width : Z }.

(** The body of the second button: the pictures in the order they are
    placed and the caption, or the text of [st.info]. *)
Definition penguin_block (penguin_img : image) (penguins_saved : Q)
  : (list placed * fstring) + string :=
  if Qltb 0 penguins_saved then
    let full_penguins := py_int penguins_saved in
    let partial_penguin_fraction := penguins_saved - inject_Z full_penguins in
    let whole :=
      map (fun idx => mkplaced (idx mod 5) penguin_img 300)
          (range full_penguins) in
    let part :=
      if Qltb 0 partial_penguin_fraction then
        let partial_height :=
          py_int (inject_Z (img_height penguin_img)
                  * partial_penguin_fraction) in
        let cropped_img :=
          crop penguin_img (0, 0, img_width penguin_img, partial_height)%Z in
        [mkplaced (full_penguins mod 5) cropped_img 300]
      else [] in
    inl ((whole ++ part)%list, mkfstring "총 " penguins_saved 1 " 마리 펭귄")
  else inr "아직 살린 펭귄이 없습니다. 탄소를 더 절감해보세요!".

(** The same widgets with the toggle of line 223 set to [b]. *)
Definition with_fixed_emission (i : inputs) (b : bool) : inputs :=
  mkinputs (start_date i) (end_date i) (usage_before i) (usage_after i)
    (electricity_button i) (waste_amount i) (recycling_amount i)
    (user_daily_water_usage i) (transport_mode i) (distance i)
    (waste_mode i) b.

(** The same widgets with other amounts in the two recycling inputs. *)
Definition with_recycling (i : inputs) (waste recycled : Q) : inputs :=
  mkinputs (start_date i) (end_date i) (usage_before i) (usage_after i)
    (electricity_button i) waste recycled
    (user_daily_water_usage i) (transport_mode i) (distance i)
    (waste_mode i) (add_fixed_emission i).

(** * Properties *)

(** ** Comparisons *)

Lemma Qleb_true (a b : Q) : Qleb a b = true <-> a <= b.
Proof. unfold Qleb. apply Qle_bool_iff. Qed.

Lemma Qleb_false (a b : Q) : Qleb a b = false <-> b < a.
Proof.
  unfold Qleb. split; intros H.
  - apply Qnot_le_lt. intros Hle. apply Qle_bool_iff in Hle. congruence.
  - destruct (Qle_bool a b) eqn:E; [|reflexivity].
    apply Qle_bool_iff in E. exfalso. apply (Qlt_not_le _ _ H E).
Qed.

Lemma Qltb_true (a b : Q) : Qltb a b = true <-> a < b.
Proof.
  unfold Qltb. rewrite negb_true_iff. apply (Qleb_false b a).
Qed.

Lemma Qltb_false (a b : Q) : Qltb a b = false <-> b <= a.
Proof.
  unfold Qltb. rewrite negb_false_iff. apply (Qleb_true b a).
Qed.

(** Case analysis on a comparison, leaving the order fact in the context. *)
Ltac case_cmp c :=
  let E := fresh "Hcmp" in
  destruct c eqn:E;
  [ first [ apply Qleb_true in E | apply Qltb_true in E ]
  | first [ apply Qleb_false in E | apply Qltb_false in E ] ].

(** ** The bill *)

(** With the default contract type nothing raises, and the branch taken
    is the band of the usage. *)
Lemma calculate_monthly_bill_bands (u : Q) :
  exists e : Q,
    calculate_monthly_bill u default_contract_type = Ok (bill_of_charge e) /\
    ((u <= 200 /\ e = 0 + u * 78.3) \/
     (200 < u /\ u <= 400 /\
      e = 0 + inject_Z 200 * 78.3 + (u - inject_Z 200) * 147.3) \/
     (400 < u /\
      e = 0 + inject_Z 200 * 78.3 + inject_Z 200 * 147.3
          + (u - inject_Z 400) * 215.6)).
Proof.
  unfold calculate_monthly_bill; simpl.
  case_cmp (Qleb u (inject_Z 200)).
  - eexists; split; [reflexivity|]. left. split; [exact Hcmp | reflexivity].
  - case_cmp (Qleb u (inject_Z 400)).
    + eexists; split; [reflexivity|]. right; left. repeat split; assumption.
    + eexists; split; [reflexivity|]. right; right. split; [assumption | reflexivity].
Qed.

Lemma bill_of_charge_components (e : Q) :
  bill_total (bill_of_charge e)
    = base_fee + e + e * ELECTRICITY_FUND_RATE
      + (e + e * ELECTRICITY_FUND_RATE) * VAT_RATE /\
  bill_energy_charge (bill_of_charge e) = e /\
  bill_fund (bill_of_charge e) = e * ELECTRICITY_FUND_RATE /\
  bill_vat (bill_of_charge e) = (e + e * ELECTRICITY_FUND_RATE) * VAT_RATE.
Proof. repeat split. Qed.

(** Unfolds the constants of the tariff and the injections of its
    integer thresholds, leaving linear arithmetic over the rationals. *)
Ltac tariff_arith :=
  unfold base_fee, ELECTRICITY_FUND_RATE, VAT_RATE, inject_Z in *;
  try lra.

(** C2.  For every non-negative usage u the energy charge of
    calculate_monthly_bill follows the three-band progressive schedule with
    thresholds 200 and 400 kWh and rates 78.3, 147.3, 215.6 won/kWh:
    u <= 200 gives u*78.3; 200 < u <= 400 gives 200*78.3 + (u-200)*147.3;
    u > 400 gives 200*78.3 + 200*147.3 + (u-400)*215.6.  The bounds of the
    bands are inclusive above, so a usage on a threshold is priced in the
    lower band. *)
Theorem C2_energy_charge_bands (u : Q) (Hu : 0 <= u) :
  exists b : Q * Q * Q * Q,
    calculate_monthly_bill u default_contract_type = Ok b /\
    (u <= 200 -> bill_energy_charge b == u * 78.3) /\
    (200 < u -> u <= 400 ->
     bill_energy_charge b == 200 * 78.3 + (u - 200) * 147.3) /\
    (400 < u ->
     bill_energy_charge b == 200 * 78.3 + 200 * 147.3 + (u - 400) * 215.6).
Proof.
  destruct (calculate_monthly_bill_bands u) as (e & Hb & Hcase).
  exists (bill_of_charge e). split; [exact Hb|].
  destruct (bill_of_charge_components e) as (_ & -> & _).
  destruct Hcase as [(H1 & ->) | [(H1 & H2 & ->) | (H1 & ->)]];
    repeat split; intros; tariff_arith.
Qed.

Lemma C2_energy_charge_bands_witness :
  0 <= 400 /\
  exists b : Q * Q * Q * Q,
    calculate_monthly_bill 400 default_contract_type = Ok b /\
    (400 <= 200 -> bill_energy_charge b == 400 * 78.3) /\
    (200 < 400 -> 400 <= 400 ->
     bill_energy_charge b == 200 * 78.3 + (400 - 200) * 147.3) /\
    (400 < 400 ->
     bill_energy_charge b == 200 * 78.3 + 200 * 147.3 + (400 - 400) * 215.6).
Proof.
  split; [lra | apply (C2_energy_charge_bands 400); lra].
Defined.

(** C7.  For every non-negative usage u the components of the bill satisfy
    fund = energy_charge * 0.037, vat = (energy_charge + fund) * 0.1 and
    total = base fee + energy_charge + fund + vat, where the base fee is the
    constant 0; all components are non-negative; and for u = 0 the energy
    charge, the fund and the VAT are zero and the total is the base fee. *)
Theorem C7_bill_components (u : Q) (Hu : 0 <= u) :
  exists b : Q * Q * Q * Q,
    calculate_monthly_bill u default_contract_type = Ok b /\
    bill_fund b == bill_energy_charge b * ELECTRICITY_FUND_RATE /\
    ELECTRICITY_FUND_RATE == 0.037 /\
    bill_vat b == (bill_energy_charge b + bill_fund b) * VAT_RATE /\
    VAT_RATE == 0.1 /\
    bill_total b == base_fee + bill_energy_charge b + bill_fund b + bill_vat b /\
    base_fee == 0 /\
    0 <= bill_energy_charge b /\ 0 <= bill_fund b /\ 0 <= bill_vat b /\
    0 <= bill_total b /\
    (u == 0 ->
     bill_energy_charge b == 0 /\ bill_fund b == 0 /\ bill_vat b == 0 /\
     bill_total b == base_fee).
Proof.
  destruct (calculate_monthly_bill_bands u) as (e & Hb & Hcase).
  exists (bill_of_charge e). split; [exact Hb|].
  destruct (bill_of_charge_components e) as (-> & -> & -> & ->).
  assert (He : 0 <= e /\ (u == 0 -> e == 0)).
  { destruct Hcase as [(H1 & ->) | [(H1 & H2 & ->) | (H1 & ->)]];
      split; intros; tariff_arith. }
  destruct He as (He & Hz).
  repeat split; try reflexivity; try (intros H0; specialize (Hz H0));
    tariff_arith.
Qed.

Lemma C7_bill_components_witness :
  0 <= 0 /\
  exists b : Q * Q * Q * Q,
    calculate_monthly_bill 0 default_contract_type = Ok b /\
    bill_energy_charge b == 0 /\ bill_fund b == 0 /\ bill_vat b == 0 /\
    bill_total b == base_fee.
Proof.
  split; [lra|].
  destruct (C7_bill_components 0) as (b & Hb & H); [lra|].
  exists b. split; [exact Hb|].
  apply H. reflexivity.
Defined.

(** ** The total and its distance to the world average *)

(** C3.  For all co2After, waterCo2, transportCo2, wasteCo2 and every
    position of the toggle, lines 223-231 give
    total = co2After + waterCo2 + transportCo2 + wasteCo2
            + (1300 if the toggle is on, else 0)
    and delta = 4800 - total; with the three other terms 0 and the toggle on,
    total = co2After + 1300 and delta = 4800 - total. *)
Theorem C3_footprint_total_and_delta
    (co2After waterCo2 transportCo2 wasteCo2 : Q) (includeFixed : bool) :
  let r := footprint co2After waterCo2 transportCo2 wasteCo2 includeFixed in
  let r0 := footprint co2After 0 0 0 true in
  fst r == co2After + waterCo2 + transportCo2 + wasteCo2
           + (if includeFixed then 1300 else 0) /\
  snd r == 4800 - fst r /\
  fst r0 == co2After + 1300 /\
  snd r0 == 4800 - fst r0.
Proof.
  unfold footprint, total_annual_co2_kg, delta_kg, fixed_emission_value,
    World_AVERAGE_CO2_KG; simpl fst; simpl snd.
  destruct includeFixed; unfold inject_Z; repeat split; lra.
Qed.

(** ** The month count *)

Lemma valid_date_month (d : date) :
  valid_date d = true -> (1 <= month d <= 12)%Z.
Proof.
  unfold valid_date. rewrite !andb_true_iff. lia.
Qed.

Lemma date_le_spec (a b : date) :
  date_le a b ->
  (year a < year b)%Z \/
  (year a = year b /\ (month a < month b)%Z) \/
  (year a = year b /\ month a = month b /\ (day a <= day b)%Z).
Proof.
  unfold date_le, date_gtb.
  rewrite !orb_false_iff, !andb_false_iff, !orb_false_iff, !andb_false_iff.
  lia.
Qed.

(** C8.  For valid dates start <= end, count_months is
    (end.year - start.year)*12 + (end.month - start.month) + 1, it is at
    least 1, and it does not depend on the day of either date; and
    count_months(2024-01-15, 2024-01-20) = 1,
    count_months(2024-01-01, 2024-03-01) = 3. *)
Theorem C8_count_months (start_d end_d : date)
    (Hs : valid_date start_d = true) (He : valid_date end_d = true)
    (Hle : date_le start_d end_d) :
  count_months start_d end_d
    = ((year end_d - year start_d) * 12 + (month end_d - month start_d) + 1)%Z /\
  (1 <= count_months start_d end_d)%Z /\
  (forall ds de : Z,
     count_months (mkdate (year start_d) (month start_d) ds)
                  (mkdate (year end_d) (month end_d) de)
     = count_months start_d end_d) /\
  count_months (mkdate 2024 1 15) (mkdate 2024 1 20) = 1%Z /\
  count_months (mkdate 2024 1 1) (mkdate 2024 3 1) = 3%Z.
Proof.
  pose proof (valid_date_month _ Hs) as Ms.
  pose proof (valid_date_month _ He) as Me.
  pose proof (date_le_spec _ _ Hle) as Ho.
  unfold count_months; simpl.
  repeat split; try reflexivity; lia.
Qed.

Lemma C8_count_months_witness :
  valid_date (mkdate 2023 11 30) = true /\
  valid_date (mkdate 2024 2 29) = true /\
  date_le (mkdate 2023 11 30) (mkdate 2024 2 29) /\
  count_months (mkdate 2023 11 30) (mkdate 2024 2 29) = 4%Z.
Proof.
  split; [reflexivity|]. split; [reflexivity|]. split; [reflexivity|].
  destruct (C8_count_months (mkdate 2023 11 30) (mkdate 2024 2 29))
    as (Hf & _); [reflexivity | reflexivity | reflexivity |].
  rewrite Hf. reflexivity.
Defined.

(** ** The electricity analyser *)

Lemma py_div_nonzero (a b : Q) : ~ b == 0 -> py_div a b = Ok (a / b).
Proof.
  intros Hb. unfold py_div.
  destruct (Qeq_bool b 0) eqn:E; [|reflexivity].
  apply Qeq_bool_iff in E. contradiction.
Qed.

(** The block returns as soon as the usage before is not zero. *)
Lemma electricity_block_returns (start_d end_d : date) (before after : Q) :
  ~ before == 0 ->
  exists bb ba : Q * Q * Q * Q,
    calculate_monthly_bill before default_contract_type = Ok bb /\
    calculate_monthly_bill after default_contract_type = Ok ba /\
    electricity_block start_d end_d before after
    = Ok (let m := inject_Z (count_months start_d end_d) in
          let co2_before :=
            before * inject_Z CO2_EMISSION_FACTOR_G_PER_KWH * m / 1000 in
          let co2_after :=
            after * inject_Z CO2_EMISSION_FACTOR_G_PER_KWH * m / 1000 in
          mkelectricity (count_months start_d end_d)
            ((before - after) * m)
            ((before - after) / before * 100)
            ((bill_total bb - bill_total ba) * m)
            co2_before co2_after (co2_before - co2_after)).
Proof.
  intros Hnz.
  destruct (calculate_monthly_bill_bands before) as (e1 & Hb1 & _).
  destruct (calculate_monthly_bill_bands after) as (e2 & Hb2 & _).
  exists (bill_of_charge e1), (bill_of_charge e2).
  split; [exact Hb1|]. split; [exact Hb2|].
  unfold electricity_block.
  rewrite (py_div_nonzero _ _ Hnz), Hb1, Hb2. reflexivity.
Qed.

(** C5.  For usage_before > 0, usage_after <= usage_before and the month
    count m of the date range, the electricity analyser yields
    saved kWh = (before - after) * m,
    saved percent = (before - after) / before * 100,
    saved won = (total bill before - total bill after) * m, and
    CO2 before/after = usage * 409 * m / 1000 kg; and for 400 and 300 kWh
    over one month the saved kWh are 100 and the saved percent is 25. *)
Theorem C5_electricity_delta (start_d end_d : date) (before after : Q)
    (Hpos : 0 < before) (Hle : after <= before) :
  (exists (e : electricity) (bb ba : Q * Q * Q * Q),
     electricity_block start_d end_d before after = Ok e /\
     calculate_monthly_bill before default_contract_type = Ok bb /\
     calculate_monthly_bill after default_contract_type = Ok ba /\
     let m := inject_Z (count_months start_d end_d) in
     num_months e = count_months start_d end_d /\
     total_saved_kwh e == (before - after) * m /\
     saved_percent e == (before - after) / before * 100 /\
     total_saved_won e == (bill_total bb - bill_total ba) * m /\
     co2_before_kg e == before * 409 * m / 1000 /\
     co2_after_kg e == after * 409 * m / 1000) /\
  (exists e1 : electricity,
     electricity_block (mkdate 2024 1 15) (mkdate 2024 1 20) 400 300 = Ok e1 /\
     num_months e1 = 1%Z /\
     total_saved_kwh e1 == 100 /\ saved_percent e1 == 25).
Proof.
  split.
  - assert (Hnz : ~ before == 0) by lra.
    destruct (electricity_block_returns start_d end_d before after Hnz)
      as (bb & ba & Hbb & Hba & Hblock).
    eexists; exists bb, ba.
    split; [exact Hblock|]. split; [exact Hbb|]. split; [exact Hba|].
    simpl. unfold CO2_EMISSION_FACTOR_G_PER_KWH.
    repeat split; reflexivity.
  - eexists. split; [vm_compute; reflexivity|].
    simpl. repeat split; reflexivity.
Qed.

Lemma C5_electricity_delta_witness :
  0 < 400 /\ 300 <= 400 /\
  exists e : electricity,
    electricity_block (mkdate 2024 1 1) (mkdate 2024 3 1) 400 300 = Ok e /\
    total_saved_kwh e == (400 - 300) * inject_Z 3.
Proof.
  split; [lra|]. split; [lra|].
  destruct (C5_electricity_delta (mkdate 2024 1 1) (mkdate 2024 3 1) 400 300)
    as ((e & bb & ba & He & _ & _ & _ & Hk & _) & _); [lra | lra |].
  exists e. split; [exact He | exact Hk].
Defined.

(** ** The recycling grader *)

Lemma get_grade_bands (rate : Q) :
  (rate < 50 -> get_grade rate = ("낮음", "🔴", "#ff4444")) /\
  (50 <= rate -> rate < 75 -> get_grade rate = ("보통", "🟡", "#ffaa00")) /\
  (75 <= rate -> rate < 100 -> get_grade rate = ("높음", "🟢", "#00aa00")) /\
  (100 <= rate -> get_grade rate = ("매우 높음", "🔵", "#0066cc")).
Proof.
  unfold get_grade.
  case_cmp (Qltb rate 50); [|case_cmp (Qltb rate 75); [|case_cmp (Qltb rate 100)]];
    repeat split; intros; try reflexivity; exfalso; lra.
Qed.

(** With a positive amount of waste the block computes its figures,
    whatever the recycled amount is. *)
Lemma recycling_block_positive (waste recycled : Q) :
  0 < waste ->
  recycling_block waste recycled
  = Some (let rate := recycled / waste * 100 in
          let rel := rate / NATIONAL_RATE * 100 in
          mkrecycling rate rel
            (fst (fst (get_grade rel))) (snd (fst (get_grade rel)))
            (snd (get_grade rel))).
Proof.
  intros Hw. unfold recycling_block.
  apply Qltb_true in Hw. rewrite Hw. simpl.
  destruct (get_grade _) as [[g e] c]. reflexivity.
Qed.

(** *** The grade of the page, on binary64 floats *)

Section Binary64.

Import SpecFloat PrimFloat.
Local Open Scope float_scope.
#[local] Set Warnings "-inexact-float".

(** Splits the comparisons of exponents and mantissas inside SFcompare. *)
Ltac cmp_cases :=
  repeat match goal with
  | |- context [Pos.compare_cont Eq ?a ?b] =>
      change (Pos.compare_cont Eq a b) with (Pos.compare a b)
  end;
  repeat match goal with
  | |- context [Z.compare ?x ?y] => destruct (Z.compare_spec x y)
  | |- context [Pos.compare ?x ?y] => destruct (Pos.compare_spec x y)
  end.

Lemma SFleb_not_ltb (b c : spec_float) :
  SFleb b c = true -> SFltb c b = false.
Proof.
  unfold SFleb, SFltb.
  destruct b as [sb|sb| |sb mb eb], c as [sc|sc| |sc mc ec]; simpl;
    try destruct sb; try destruct sc; simpl;
    try reflexivity; try discriminate;
    cmp_cases; simpl; intros; subst;
    try reflexivity; try discriminate; lia.
Qed.

Lemma SFltb_leb_trans (a b c : spec_float) :
  SFltb a b = true -> SFleb b c = true -> SFltb c a = false.
Proof.
  unfold SFleb, SFltb.
  destruct a as [sa|sa| |sa ma ea], b as [sb|sb| |sb mb eb],
           c as [sc|sc| |sc mc ec]; simpl;
    try destruct sa; try destruct sb; try destruct sc; simpl;
    try reflexivity; try discriminate;
    cmp_cases; simpl; intros; subst;
    try reflexivity; try discriminate; lia.
Qed.

(** [b <= c] excludes [c < b], and [a < b <= c] excludes [c < a]; a NaN
    satisfies no comparison. *)
Lemma leb_not_ltb (b c : float) : (b <=? c) = true -> (c <? b) = false.
Proof.
  rewrite FloatAxioms.leb_spec, FloatAxioms.ltb_spec. apply SFleb_not_ltb.
Qed.

Lemma ltb_leb_trans (a b c : float) :
  (a <? b) = true -> (b <=? c) = true -> (c <? a) = false.
Proof.
  rewrite FloatAxioms.leb_spec, !FloatAxioms.ltb_spec. apply SFltb_leb_trans.
Qed.

Lemma F64_get_grade_bands (rate : float) :
  ((rate <? 50) = true -> F64.get_grade rate = ("낮음", "🔴", "#ff4444")%string) /\
  ((50 <=? rate) = true -> (rate <? 75) = true ->
   F64.get_grade rate = ("보통", "🟡", "#ffaa00")%string) /\
  ((75 <=? rate) = true -> (rate <? 100) = true ->
   F64.get_grade rate = ("높음", "🟢", "#00aa00")%string) /\
  ((100 <=? rate) = true ->
   F64.get_grade rate = ("매우 높음", "🔵", "#0066cc")%string).
Proof.
  unfold F64.get_grade. repeat split.
  - intros ->. reflexivity.
  - intros H50 ->. rewrite (leb_not_ltb _ _ H50). reflexivity.
  - intros H75 ->.
    rewrite (ltb_leb_trans 50 75 rate eq_refl H75), (leb_not_ltb _ _ H75).
    reflexivity.
  - intros H100.
    rewrite (ltb_leb_trans 50 100 rate eq_refl H100),
      (ltb_leb_trans 75 100 rate eq_refl H100), (leb_not_ltb _ _ H100).
    reflexivity.
Qed.

(** C9.  On the binary64 figures of the page: for waste > 0 and
    0 <= recycled <= waste the grader yields rate = recycled / waste * 100 and
    relative rate = rate / 69.8 * 100, each operation rounded as the code
    computes it, and the grade is low ("낮음") when the relative rate is
    below 50, moderate ("보통") on [50, 75), high ("높음") on [75, 100) and
    very high ("매우 높음") from 100.  For 1000 and 300 the rate is 30.0, the
    relative rate is 42.97994269340975, that is 42.98 to two decimals, and
    the grade is low.  The bands are those of the computed relative rate:
    for 367.6 and 128.2924 it is 49.999999999999986 and the grade is low. *)
Theorem C9_recycling_grade (waste recycled : float)
    (Hw : (0 <? waste) = true)
    (Hr0 : (0 <=? recycled) = true) (Hr1 : (recycled <=? waste) = true) :
  (exists r : F64.recycling,
     F64.recycling_block waste recycled = Some r /\
     F64.recycling_rate r = recycled / waste * 100 /\
     F64.relative_rate r = F64.recycling_rate r / 69.8 * 100 /\
     ((F64.relative_rate r <? 50) = true -> F64.grade r = "낮음"%string) /\
     ((50 <=? F64.relative_rate r) = true ->
      (F64.relative_rate r <? 75) = true -> F64.grade r = "보통"%string) /\
     ((75 <=? F64.relative_rate r) = true ->
      (F64.relative_rate r <? 100) = true -> F64.grade r = "높음"%string) /\
     ((100 <=? F64.relative_rate r) = true ->
      F64.grade r = "매우 높음"%string)) /\
  (exists r0 : F64.recycling,
     F64.recycling_block 1000 300 = Some r0 /\
     F64.recycling_rate r0 = 30 /\
     F64.relative_rate r0 = 42.97994269340975 /\
     (42.975 <=? F64.relative_rate r0) = true /\
     (F64.relative_rate r0 <=? 42.985) = true /\
     F64.grade r0 = "낮음"%string) /\
  (exists r1 : F64.recycling,
     F64.recycling_block 367.6 128.2924 = Some r1 /\
     F64.relative_rate r1 = 49.999999999999986 /\
     F64.grade r1 = "낮음"%string).
Proof.
  split; [|split].
  - unfold F64.recycling_block. rewrite Hw.
    set (rate := recycled / waste * 100).
    set (rel := rate / F64.NATIONAL_RATE * 100).
    destruct (F64_get_grade_bands rel) as (G1 & G2 & G3 & G4).
    destruct (F64.get_grade rel) as [[g e] c].
    eexists. split; [reflexivity|].
    cbn [F64.recycling_rate F64.relative_rate F64.grade].
    split; [reflexivity|]. split; [reflexivity|].
    repeat split.
    + intros H. injection (G1 H) as -> _ _. reflexivity.
    + intros H H'. injection (G2 H H') as -> _ _. reflexivity.
    + intros H H'. injection (G3 H H') as -> _ _. reflexivity.
    + intros H. injection (G4 H) as -> _ _. reflexivity.
  - eexists. split; [vm_compute; reflexivity|].
    cbn [F64.recycling_rate F64.relative_rate F64.grade].
    repeat split; reflexivity.
  - eexists. split; [vm_compute; reflexivity|].
    cbn [F64.recycling_rate F64.relative_rate F64.grade].
    repeat split; reflexivity.
Qed.

Lemma C9_recycling_grade_witness :
  (0 <? 1000) = true /\ (0 <=? 600) = true /\ (600 <=? 1000) = true /\
  exists r : F64.recycling,
    F64.recycling_block 1000 600 = Some r /\
    F64.recycling_rate r = 60 /\ F64.grade r = "높음"%string.
Proof.
  split; [reflexivity|]. split; [reflexivity|]. split; [reflexivity|].
  destruct (C9_recycling_grade 1000 600)
    as ((r & Hr & Hrate & Hrel & _ & _ & Hhigh & _) & _);
    [reflexivity | reflexivity | reflexivity |].
  exists r. split; [exact Hr|]. split.
  - rewrite Hrate. reflexivity.
  - apply Hhigh; rewrite Hrel, Hrate; reflexivity.
Defined.

End Binary64.

(** ** Transport *)

(** C10.  For each of the four modes (car, bus, subway, bicycle/on foot)
    and every round-trip distance km >= 0, daily_co2 = factor[mode] * km
    with the literal factors 0.170, 0.093, 0.091, 0.056, and
    annual_co2 = daily_co2 * 365; the daily figure is shown with the unit
    text "g CO₂e" and the annual one with "kg CO₂e", both as the numbers
    computed, with no change of scale between them. *)
Theorem C10_transport (mode : string) (km : Q)
    (Hmode : In mode transport_modes) (Hkm : 0 <= km) :
  dict_get emission_factors "자동차" = Ok 0.170 /\
  dict_get emission_factors "버스" = Ok 0.093 /\
  dict_get emission_factors "지하철" = Ok 0.091 /\
  dict_get emission_factors "자전거/도보" = Ok 0.056 /\
  exists (t : transport) (factor : Q),
    dict_get emission_factors mode = Ok factor /\
    transport_block mode km = Ok t /\
    daily_co2 t == factor * km /\
    annual_co2 t == daily_co2 t * 365 /\
    map (fun m => (fs_number (metric_body m), fs_text (metric_body m)))
        (transport_metrics t)
    = [(daily_co2 t, "g CO₂e"); (annual_co2 t, "kg CO₂e")].
Proof.
  repeat (split; [reflexivity|]).
  assert (Hf : exists factor, dict_get emission_factors mode = Ok factor).
  { simpl in Hmode.
    destruct Hmode as [<- | [<- | [<- | [<- | []]]]]; eexists; reflexivity. }
  destruct Hf as (factor & Hf).
  eexists; exists factor. split; [exact Hf|].
  unfold transport_block. rewrite Hf. simpl.
  repeat split; reflexivity.
Qed.

Lemma C10_transport_witness :
  In "버스" transport_modes /\ 0 <= 10 /\
  exists t : transport,
    transport_block "버스" 10 = Ok t /\
    daily_co2 t == 0.93 /\ annual_co2 t == 339.45.
Proof.
  split; [simpl; tauto|]. split; [lra|].
  destruct (C10_transport "버스" 10)
    as (_ & Hbus & _ & _ & t & factor & Hf & Ht & Hd & Ha & _);
    [simpl; tauto | lra |].
  exists t. split; [exact Ht|].
  rewrite Hbus in Hf. injection Hf as <-.
  split; [rewrite Hd | rewrite Ha, Hd]; reflexivity.
Defined.

(** ** The water simulator *)

Lemma water_block_saving (d : Z) :
  (0 < 305 - d)%Z ->
  water_branch (water_block d)
  = inl (let annual := inject_Z ((305 - d) * 365) in
         let hot := annual * 0.40 in
         let cold := annual * 0.60 / 1000 in
         let e_hot := hot * ENERGY_TO_HEAT_1L_WATER in
         let e_cold := cold * ENERGY_PER_CUBIC_METER_WATER_SUPPLY in
         let co2 := (e_hot + e_cold) * CO2_PER_KWH in
         mkwater_figures hot cold e_hot e_cold (e_hot + e_cold) co2
           (co2 / inject_Z CO2_ABSORBED_PER_TREE_PER_YEAR)).
Proof.
  intros Hs. unfold water_block, DEFAULT_PER_CAPITA_WATER_USAGE.
  cbn [water_branch].
  destruct (305 - d >? 0)%Z eqn:E; [reflexivity|].
  rewrite Z.gtb_ltb in E. apply Z.ltb_ge in E. lia.
Qed.

Lemma water_block_no_saving (d : Z) :
  (305 - d <= 0)%Z ->
  water_branch (water_block d) = inr water_info_message.
Proof.
  intros Hs. unfold water_block, DEFAULT_PER_CAPITA_WATER_USAGE.
  cbn [water_branch].
  destruct (305 - d >? 0)%Z eqn:E; [|reflexivity].
  rewrite Z.gtb_ltb in E. apply Z.ltb_lt in E. lia.
Qed.

(** C6, as the code has it.  For every daily usage d in [0, 500] with
    saving s = 305 - d: if s > 0 then annual liters = s*365, hot-water
    energy = (0.40*annual)*0.029 kWh, cold-supply energy =
    (0.60*annual/1000)*0.5 kWh, co2 = (hot+cold)*0.4 and trees = co2/21; if
    s <= 0 only the neutral message is produced and no energy, CO2 or tree
    figure exists (co2_reduced_kg stays unbound).  At d = 305 the saving
    and the annual liters are 0 and there is no CO2 figure; at d = 100 the
    energy is 890.4175 kWh (shown as 890.42) and the CO2 is 356.167 kg (shown
    as 356.17). *)
Theorem C6_water_estimator (d : Z) (Hd : (0 <= d <= 500)%Z) :
  let w := water_block d in
  let s := (305 - d)%Z in
  (daily_saving w = s /\ annual_saving_liters w = (s * 365)%Z) /\
  ((0 < s)%Z ->
   exists f : water_figures,
     water_branch w = inl f /\
     let annual := inject_Z (annual_saving_liters w) in
     energy_saved_from_hot_water f == (0.40 * annual) * 0.029 /\
     energy_saved_from_cold_supply f == (0.60 * annual / 1000) * 0.5 /\
     total_energy_saved_kwh f
       == energy_saved_from_hot_water f + energy_saved_from_cold_supply f /\
     co2_reduced_kg f == total_energy_saved_kwh f * 0.4 /\
     equivalent_trees f == co2_reduced_kg f / 21) /\
  ((s <= 0)%Z ->
   water_branch w = inr water_info_message /\
   co2_reduced_kg_local w = None) /\
  (daily_saving (water_block 305) = 0%Z /\
   annual_saving_liters (water_block 305) = 0%Z /\
   co2_reduced_kg_local (water_block 305) = None) /\
  (exists f : water_figures,
     water_branch (water_block 100) = inl f /\
     daily_saving (water_block 100) = 205%Z /\
     annual_saving_liters (water_block 100) = 74825%Z /\
     total_energy_saved_kwh f == 890.4175 /\
     co2_reduced_kg f == 356.167 /\
     agrees_to_2_decimals (total_energy_saved_kwh f) 890.42 /\
     agrees_to_2_decimals (co2_reduced_kg f) 356.17).
Proof.
  cbv zeta. split; [split; reflexivity|]. split; [|split; [|split]].
  - intros Hs. eexists. split; [apply (water_block_saving d Hs)|].
    cbv zeta.
    cbn [energy_saved_from_hot_water energy_saved_from_cold_supply
         total_energy_saved_kwh co2_reduced_kg equivalent_trees].
    unfold water_block, DEFAULT_PER_CAPITA_WATER_USAGE,
      ENERGY_TO_HEAT_1L_WATER, ENERGY_PER_CUBIC_METER_WATER_SUPPLY,
      CO2_PER_KWH, CO2_ABSORBED_PER_TREE_PER_YEAR.
    cbn [annual_saving_liters].
    repeat split; try reflexivity; field.
  - intros Hs. unfold co2_reduced_kg_local.
    rewrite (water_block_no_saving d Hs). split; reflexivity.
  - repeat split.
  - eexists. split; [vm_compute; reflexivity|].
    unfold agrees_to_2_decimals.
    cbn [total_energy_saved_kwh co2_reduced_kg].
    repeat split; vm_compute; try reflexivity; discriminate.
Qed.

Lemma C6_water_estimator_witness :
  (0 <= 200 <= 500)%Z /\ (0 < 305 - 200)%Z /\
  exists f : water_figures,
    water_branch (water_block 200) = inl f /\
    co2_reduced_kg f == total_energy_saved_kwh f * 0.4.
Proof.
  split; [lia|]. split; [lia|].
  destruct (C6_water_estimator 200) as (_ & Hpos & _); [lia|].
  destruct Hpos as (f & Hf & _ & _ & _ & Hco2 & _); [lia|].
  exists f. split; [exact Hf | exact Hco2].
Defined.

(** C6 as the specification words it fails twice.  At d = 100 the energy
    and the CO2 are not 890.48 and 356.19 to the two decimals written: the
    page shows 890.42 kWh and 356.17 kg (in hundredths: 89042 and 35617).
    At d = 305 no CO2 figure of value 0 is produced: the name stays
    unbound. *)
Lemma C6_water_estimator_counterexample :
  (exists f : water_figures,
     water_branch (water_block 100) = inl f /\
     ~ agrees_to_2_decimals (total_energy_saved_kwh f) 890.48 /\
     ~ agrees_to_2_decimals (co2_reduced_kg f) 356.19 /\
     map (fun m => shown (metric_body m))
         (water_metrics (annual_saving_liters (water_block 100)) f)
     = [74825; 89042; 35617; 170]%Z) /\
  (forall z : Q, co2_reduced_kg_local (water_block 305) <> Some z).
Proof.
  split.
  - eexists. split; [vm_compute; reflexivity|].
    unfold agrees_to_2_decimals.
    cbn [total_energy_saved_kwh co2_reduced_kg].
    split; [|split].
    + intros [H _]. vm_compute in H. apply H. reflexivity.
    + intros [H _]. vm_compute in H. apply H. reflexivity.
    + vm_compute. reflexivity.
  - intros z. vm_compute. discriminate.
Qed.

(** ** Malformed input *)


(** ** One run of the script *)

Lemma bind_Ok {A B : Type} (c : result A) (k : A -> result B) (b : B) :
  bind c k = Ok b -> exists a : A, c = Ok a /\ k a = Ok b.
Proof.
  destruct c as [a|e]; simpl; intros H; [|discriminate].
  exists a. split; [reflexivity | exact H].
Qed.

Lemma stop_unless_Ok (ok : bool) (message : string) (x : unit) :
  stop_unless ok message = Ok x -> ok = true.
Proof.
  unfold stop_unless. destruct ok; [reflexivity | discriminate].
Qed.

(** Inverts one [x <- c ;; k] that is known to return. *)
Ltac invert_bind H :=
  let a := fresh "a" in
  let Ha := fresh "Ha" in
  apply bind_Ok in H; destruct H as (a & Ha & H).

Lemma number_input_Ok (min_value : Q) (max_value : option Q)
    (value entered x : Q) :
  number_input min_value max_value value entered = Ok x ->
  x = entered /\ min_value <= value /\
  (forall bound : Q, max_value = Some bound -> value <= bound).
Proof.
  unfold number_input.
  case_cmp (Qltb value min_value); [discriminate|].
  destruct max_value as [bound|].
  - case_cmp (Qltb bound value); [discriminate|].
    intros H. injection H as <-.
    split; [reflexivity|]. split; [assumption|].
    intros b Hb. injection Hb as <-. assumption.
  - intros H. injection H as <-.
    split; [reflexivity|]. split; [assumption|]. intros b Hb. discriminate.
Qed.

Lemma number_input_in_range (min_value bound value entered : Q) :
  min_value <= value -> value <= bound ->
  number_input min_value (Some bound) value entered = Ok entered.
Proof.
  intros Hlo Hhi. unfold number_input.
  apply Qltb_false in Hlo. apply Qltb_false in Hhi.
  rewrite Hlo, Hhi. reflexivity.
Qed.

(** What a run that reaches line 231 has computed. *)
Lemma script_Ok (i : inputs) (o : outputs) :
  script i = Ok o ->
  date_le (start_date i) (end_date i) /\
  usage_after i <= usage_before i /\
  out_water o = water_block (user_daily_water_usage i) /\
  out_recycling o = recycling_block (waste_amount i) (recycling_amount i) /\
  transport_block (transport_mode i) (distance i) = Ok (out_transport o) /\
  dict_get emission (waste_mode i) = Ok (out_tresh_co2 o) /\
  (if electricity_button i
   then exists e : electricity,
          electricity_block (start_date i) (end_date i)
            (usage_before i) (usage_after i) = Ok e /\
          out_electricity o = Some e
   else out_electricity o = None) /\
  out_total_co2_electricity o
  = total_co2_electricity (option_map co2_after_kg (out_electricity o)) /\
  out_total_co2_water o
  = total_co2_water (water_co2_total (user_daily_water_usage i))
      (co2_reduced_kg_local (out_water o)) /\
  out_total_co2_transport o = annual_co2 (out_transport o) /\
  out_fixed_emission_value o = fixed_emission_value (add_fixed_emission i) /\
  out_total_annual_co2_kg o
  = total_annual_co2_kg (out_total_co2_electricity o) (out_total_co2_water o)
      (out_total_co2_transport o) (inject_Z (out_tresh_co2 o))
      (out_fixed_emission_value o) /\
  out_delta_kg o = delta_kg (out_total_annual_co2_kg o).
Proof.
  unfold script. intros H.
  invert_bind H. apply stop_unless_Ok, negb_true_iff in Ha.
  invert_bind H. apply stop_unless_Ok, negb_true_iff, Qltb_false in Ha0.
  invert_bind H. invert_bind H. invert_bind H. invert_bind H.
  apply number_input_Ok in Ha2. destruct Ha2 as (-> & _).
  injection H as <-. cbn.
  repeat (split; [first [assumption | reflexivity]|]).
  split; [|repeat split].
  destruct (electricity_button i).
  - invert_bind Ha1. injection Ha1 as <-. eexists; split; [eassumption | reflexivity].
  - injection Ha1 as <-. reflexivity.
Qed.


(** A run returns whenever the widgets are within their ranges and the
    two guards of lines 62 and 72 pass. *)
Lemma script_returns (i : inputs) :
  widget_ranges i = true ->
  date_le (start_date i) (end_date i) ->
  usage_after i <= usage_before i ->
  exists o : outputs, script i = Ok o.
Proof.
  unfold widget_ranges. rewrite !andb_true_iff.
  intros (((((((((((_ & _) & Hb) & _) & Hwst) & _) & _) & _) & _) & Hm) & _) & Hw).
  intros Hd Hu.
  apply Qleb_true in Hb. apply Qleb_true in Hwst.
  assert (Hn : number_input 0 (Some (waste_amount i)) 300 (recycling_amount i)
               = Ok (recycling_amount i))
    by (apply number_input_in_range; [lra | exact Hwst]).
  unfold script.
  unfold date_le in Hd. rewrite Hd.
  apply Qltb_false in Hu. rewrite Hu.
  unfold stop_unless. cbn [negb bind].
  assert (Ht : exists t, transport_block (transport_mode i) (distance i) = Ok t).
  { unfold transport_block.
    assert (Hf : exists f, dict_get emission_factors (transport_mode i) = Ok f).
    { apply existsb_exists in Hm. destruct Hm as (x & Hin & Heq).
      apply String.eqb_eq in Heq. rewrite Heq. simpl in Hin.
      destruct Hin as [<- | [<- | [<- | [<- | []]]]]; eexists; reflexivity. }
    destruct Hf as (f & ->). eexists; reflexivity. }
  destruct Ht as (t & Ht).
  assert (Hz : exists z, dict_get emission (waste_mode i) = Ok z).
  { apply existsb_exists in Hw. destruct Hw as (x & Hin & Heq).
    apply String.eqb_eq in Heq. rewrite Heq. simpl in Hin.
    destruct Hin as [<- | [<- | []]]; eexists; reflexivity. }
  destruct Hz as (z & Hz).
  destruct (electricity_button i).
  - assert (Hnz : ~ usage_before i == 0) by lra.
    destruct (electricity_block_returns (start_date i) (end_date i)
                (usage_before i) (usage_after i) Hnz) as (bb & ba & _ & _ & He).
    rewrite He. cbn [bind]. rewrite Hn. cbn [bind].
    rewrite Ht. cbn [bind]. rewrite Hz. cbn [bind].
    eexists; reflexivity.
  - cbn [bind]. rewrite Hn. cbn [bind].
    rewrite Ht. cbn [bind]. rewrite Hz. cbn [bind].
    eexists; reflexivity.
Qed.

(** The water term of the total is [user_daily_water_usage * 0.01] when the
    usage is below 305 litres and 0 otherwise. *)
Lemma script_water_term (i : inputs) (o : outputs) :
  script i = Ok o ->
  out_total_co2_water o
  = if (305 - user_daily_water_usage i >? 0)%Z
    then inject_Z (user_daily_water_usage i) * 0.01
    else 0.
Proof.
  intros H. apply script_Ok in H.
  destruct H as (_ & _ & Hw & _ & _ & _ & _ & _ & Hwater & _).
  rewrite Hwater, Hw.
  unfold co2_reduced_kg_local, water_block, DEFAULT_PER_CAPITA_WATER_USAGE.
  cbn [water_branch].
  destruct (305 - user_daily_water_usage i >? 0)%Z; reflexivity.
Qed.

(** Whenever the water simulator has produced [co2_reduced_kg], the water
    term of the total is a different number, for every whole number of
    litres. *)
Lemma script_water_term_differs (i : inputs) (o : outputs) (f : water_figures) :
  script i = Ok o ->
  water_branch (out_water o) = inl f ->
  ~ out_total_co2_water o == co2_reduced_kg f.
Proof.
  intros H Hf.
  pose proof (script_water_term i o H) as Hterm.
  apply script_Ok in H. destruct H as (_ & _ & Hw & _).
  rewrite Hw in Hf.
  destruct (Z_lt_le_dec 0 (305 - user_daily_water_usage i)) as [Hs|Hs].
  - rewrite (water_block_saving _ Hs) in Hf. injection Hf as <-.
    rewrite Hterm.
    destruct (305 - user_daily_water_usage i >? 0)%Z eqn:E;
      [|rewrite Z.gtb_ltb in E; apply Z.ltb_ge in E; lia].
    cbv zeta. cbn [co2_reduced_kg].
    unfold ENERGY_TO_HEAT_1L_WATER, ENERGY_PER_CUBIC_METER_WATER_SUPPLY,
      CO2_PER_KWH.
    remember (user_daily_water_usage i) as d.
    intros Heq.
    assert (Hin : inject_Z ((305 - d) * 365) == (305 - inject_Z d) * 365).
    { unfold Z.sub.
      rewrite inject_Z_mult, inject_Z_plus, inject_Z_opp. reflexivity. }
    rewrite Hin in Heq.
    assert (Hd : inject_Z d * 17474 == 5299070).
    { clear - Heq. set (q := inject_Z d) in *. clearbody q.
      match type of Heq with
      | _ == ?rhs => assert (Hr : rhs == (305 - q) * 1.7374) by field
      end.
      rewrite Hr in Heq. lra. }
    unfold Qeq in Hd. cbn [Qnum Qden Qmult inject_Z] in Hd. lia.
  - rewrite (water_block_no_saving _ Hs) in Hf. discriminate.
Qed.

(** ** Rejection of malformed input *)





(** ** The total as the code composes it *)

(** C1, as the code has it.  On a run that reaches the total with the
    result of the electricity analyser present and a daily water usage for
    which the water simulator has produced its figures, the total is
    co2_after_kg + water_co2_total + annual_co2 + the waste figure +
    1300 if the toggle is on, each term coming from the same inputs; the water
    term is water_co2_total = daily litres * 0.01 (line 214), an emission
    figure of its own, and never the co2_reduced_kg of the water simulator,
    which is a saving. *)
Theorem C1_total_as_designed (i : inputs) (o : outputs)
    (e : electricity) (f : water_figures)
    (Hrun : script i = Ok o)
    (He : out_electricity o = Some e)
    (Hf : water_branch (out_water o) = inl f) :
  electricity_block (start_date i) (end_date i)
    (usage_before i) (usage_after i) = Ok e /\
  water_branch (water_block (user_daily_water_usage i)) = inl f /\
  transport_block (transport_mode i) (distance i) = Ok (out_transport o) /\
  dict_get emission (waste_mode i) = Ok (out_tresh_co2 o) /\
  out_total_co2_water o == inject_Z (user_daily_water_usage i) * 0.01 /\
  out_total_annual_co2_kg o
  == co2_after_kg e + inject_Z (user_daily_water_usage i) * 0.01
     + annual_co2 (out_transport o) + inject_Z (out_tresh_co2 o)
     + (if add_fixed_emission i then 1300 else 0) /\
  ~ out_total_co2_water o == co2_reduced_kg f.
Proof.
  pose proof (script_water_term_differs i o f Hrun Hf) as Hdiff.
  pose proof (script_water_term i o Hrun) as Hterm.
  destruct (script_Ok i o Hrun)
    as (_ & _ & Hw & _ & Ht & Hz & Hel & Het & _ & Htt & Hfx & Htot & _).
  assert (Hblock : electricity_block (start_date i) (end_date i)
                     (usage_before i) (usage_after i) = Ok e).
  { destruct (electricity_button i).
    - destruct Hel as (e' & Hb & He'). rewrite He in He'.
      injection He' as ->. exact Hb.
    - rewrite He in Hel. discriminate. }
  assert (Hwater : out_total_co2_water o
                   = inject_Z (user_daily_water_usage i) * 0.01).
  { rewrite Hterm. rewrite Hw in Hf.
    unfold water_block, DEFAULT_PER_CAPITA_WATER_USAGE in Hf.
    cbn [water_branch] in Hf.
    destruct (305 - user_daily_water_usage i >? 0)%Z;
      [reflexivity | discriminate]. }
  split; [exact Hblock|]. split; [rewrite <- Hw; exact Hf|].
  split; [exact Ht|]. split; [exact Hz|].
  split; [rewrite Hwater; reflexivity|]. split; [|exact Hdiff].
  rewrite Htot, Het, Htt, Hfx, He, Hwater.
  cbn [option_map total_co2_electricity].
  unfold total_annual_co2_kg, fixed_emission_value.
  destruct (add_fixed_emission i); unfold inject_Z; lra.
Qed.

Lemma C1_total_as_designed_witness :
  exists (o : outputs) (e : electricity) (f : water_figures),
    script default_inputs = Ok o /\
    out_electricity o = Some e /\
    water_branch (out_water o) = inl f /\
    out_total_annual_co2_kg o
    == co2_after_kg e + inject_Z 100 * 0.01
       + annual_co2 (out_transport o) + inject_Z (out_tresh_co2 o) + 1300.
Proof.
  assert (Hrun : exists (o : outputs) (e : electricity) (f : water_figures),
             script default_inputs = Ok o /\
             out_electricity o = Some e /\
             water_branch (out_water o) = inl f).
  { eexists; eexists; eexists.
    split; [vm_compute; reflexivity|]. split; reflexivity. }
  destruct Hrun as (o & e & f & Ho & He & Hf).
  exists o, e, f. split; [exact Ho|]. split; [exact He|]. split; [exact Hf|].
  destruct (C1_total_as_designed default_inputs o e f Ho He Hf)
    as (_ & _ & _ & _ & _ & Htot & _).
  exact Htot.
Defined.

(** C1 as the specification words it fails at the page as it first
    loads (100 litres a day, the electricity button pressed).  The water
    simulator computes co2_reduced_kg = 356.167, and the total counts
    100 * 0.01 = 1 for water: the total is
    co2_after_kg + 1 + annual_co2 + 203 + 1300 = 3719.6 and is not the sum of
    the figures of the four simulators plus the fixed 1300. *)
Lemma C1_total_at_default_inputs :
  exists (o : outputs) (e : electricity) (f : water_figures),
    widget_ranges default_inputs = true /\
    script default_inputs = Ok o /\
    out_electricity o = Some e /\
    water_branch (out_water o) = inl f /\
    co2_reduced_kg f == 356.167 /\
    out_total_co2_water o == 1 /\
    out_total_annual_co2_kg o
      == co2_after_kg e + 1 + annual_co2 (out_transport o)
         + inject_Z (out_tresh_co2 o) + 1300 /\
    out_total_annual_co2_kg o == 3719.6 /\
    ~ out_total_annual_co2_kg o
      == co2_after_kg e + co2_reduced_kg f + annual_co2 (out_transport o)
         + inject_Z (out_tresh_co2 o) + 1300.
Proof.
  eexists; eexists; eexists.
  split; [reflexivity|].
  split; [vm_compute; reflexivity|].
  cbn [out_electricity out_water water_branch out_total_co2_water
       out_total_annual_co2_kg out_transport out_tresh_co2].
  split; [reflexivity|]. split; [reflexivity|].
  cbn [co2_reduced_kg co2_after_kg annual_co2].
  repeat split; try reflexivity.
  vm_compute. discriminate.
Qed.

(** * Further properties of the code *)

(** ** The bill as a function of the usage *)

(** Between two usages the energy charge grows at a rate between the
    lowest and the highest tier cost. *)
Lemma calculate_monthly_bill_increment (u v : Q) :
  u <= v ->
  exists eu ev : Q,
    calculate_monthly_bill u default_contract_type = Ok (bill_of_charge eu) /\
    calculate_monthly_bill v default_contract_type = Ok (bill_of_charge ev) /\
    78.3 * (v - u) <= ev - eu /\ ev - eu <= 215.6 * (v - u).
Proof.
  intros Huv.
  destruct (calculate_monthly_bill_bands u) as (eu & Hu & Cu).
  destruct (calculate_monthly_bill_bands v) as (ev & Hv & Cv).
  exists eu, ev. split; [exact Hu|]. split; [exact Hv|].
  destruct Cu as [(U1 & ->) | [(U1 & U2 & ->) | (U1 & ->)]];
    destruct Cv as [(V1 & ->) | [(V1 & V2 & ->) | (V1 & ->)]];
    split; tariff_arith.
Qed.

(** X1.  calculate_monthly_bill is continuous and increasing in the usage:
    for u <= v both calls return, the energy charge grows by at least
    78.3 and at most 215.6 won per kWh of the difference (so there is no jump
    at the thresholds 200 and 400), and the total bill does not decrease. *)
Theorem X1_bill_marginal_rate (u v : Q) (Huv : u <= v) :
  exists bu bv : Q * Q * Q * Q,
    calculate_monthly_bill u default_contract_type = Ok bu /\
    calculate_monthly_bill v default_contract_type = Ok bv /\
    78.3 * (v - u) <= bill_energy_charge bv - bill_energy_charge bu /\
    bill_energy_charge bv - bill_energy_charge bu <= 215.6 * (v - u) /\
    bill_total bu <= bill_total bv /\
    bill_total bv - bill_total bu
      == 1.1407 * (bill_energy_charge bv - bill_energy_charge bu).
Proof.
  destruct (calculate_monthly_bill_increment u v Huv)
    as (eu & ev & Hu & Hv & Hlo & Hhi).
  exists (bill_of_charge eu), (bill_of_charge ev).
  split; [exact Hu|]. split; [exact Hv|].
  destruct (bill_of_charge_components eu) as (-> & -> & _).
  destruct (bill_of_charge_components ev) as (-> & -> & _).
  repeat split; tariff_arith.
Qed.

Lemma X1_bill_marginal_rate_witness :
  150 <= 450 /\
  exists bu bv : Q * Q * Q * Q,
    calculate_monthly_bill 150 default_contract_type = Ok bu /\
    calculate_monthly_bill 450 default_contract_type = Ok bv /\
    bill_total bu <= bill_total bv.
Proof.
  split; [lra|].
  destruct (X1_bill_marginal_rate 150 450)
    as (bu & bv & Hu & Hv & _ & _ & Ht & _); [lra|].
  exists bu, bv. repeat split; assumption.
Defined.

(** ** The electricity analyser *)

Lemma count_months_ge_1 (s e : date) :
  valid_date s = true -> valid_date e = true -> date_le s e ->
  (1 <= count_months s e)%Z.
Proof.
  intros Hs He Hle.
  pose proof (valid_date_month _ Hs). pose proof (valid_date_month _ He).
  pose proof (date_le_spec _ _ Hle).
  unfold count_months. lia.
Qed.

Lemma inject_Z_ge_1 (m : Z) : (1 <= m)%Z -> 1 <= inject_Z m.
Proof.
  intros H. change 1 with (inject_Z 1). rewrite <- Zle_Qle. exact H.
Qed.

(** X2.  For valid dates start <= end and usages 0 <= after <= before with
    before > 0, every saving the analyser reports is non-negative: the month
    count is at least 1, the saved kWh, the saved won and the saved CO2 are
    >= 0, the saved percent lies in [0, 100], and the saved CO2 in kg is
    0.409 times the saved kWh. *)
Theorem X2_electricity_savings_nonnegative
    (start_d end_d : date) (before after : Q)
    (Hs : valid_date start_d = true) (He : valid_date end_d = true)
    (Hd : date_le start_d end_d)
    (Hpos : 0 < before) (Ha0 : 0 <= after) (Hle : after <= before) :
  exists e : electricity,
    electricity_block start_d end_d before after = Ok e /\
    (1 <= num_months e)%Z /\
    0 <= total_saved_kwh e /\
    0 <= saved_percent e /\ saved_percent e <= 100 /\
    0 <= total_saved_won e /\
    co2_after_kg e <= co2_before_kg e /\
    0 <= co2_after_kg e /\
    total_co2_saved_kg e == 0.409 * total_saved_kwh e.
Proof.
  assert (Hnz : ~ before == 0) by lra.
  destruct (electricity_block_returns start_d end_d before after Hnz)
    as (bb & ba & Hbb & Hba & Hblock).
  destruct (calculate_monthly_bill_increment after before Hle)
    as (ea & eb & Ha' & Hb' & Hlo & _).
  rewrite Hbb in Hb'. injection Hb' as ->.
  rewrite Hba in Ha'. injection Ha' as ->.
  eexists. split; [exact Hblock|].
  pose proof (count_months_ge_1 _ _ Hs He Hd) as Hm.
  pose proof (inject_Z_ge_1 _ Hm) as Hmq.
  cbv zeta.
  cbn [num_months total_saved_kwh saved_percent total_saved_won
       co2_before_kg co2_after_kg total_co2_saved_kg].
  destruct (bill_of_charge_components eb) as (-> & _).
  destruct (bill_of_charge_components ea) as (-> & _).
  set (m := inject_Z (count_months start_d end_d)) in *. clearbody m.
  unfold CO2_EMISSION_FACTOR_G_PER_KWH.
  assert (Hratio : 0 <= (before - after) / before /\ (before - after) / before <= 1).
  { split.
    - apply Qle_shift_div_l; [exact Hpos | lra].
    - apply Qle_shift_div_r; [exact Hpos | lra]. }
  destruct Hratio as (Hr0 & Hr1).
  assert (Hdiv : forall x, x / 1000 == x * 0.001) by (intros; field).
  rewrite !Hdiv.
  split; [exact Hm|].
  split; [nra|]. split; [lra|]. split; [lra|].
  split; [tariff_arith; nra|].
  split; [unfold inject_Z; nra|]. split; [unfold inject_Z; nra|].
  unfold inject_Z; lra.
Qed.

Lemma X2_electricity_savings_nonnegative_witness :
  valid_date (mkdate 2024 1 1) = true /\ valid_date (mkdate 2024 12 31) = true /\
  date_le (mkdate 2024 1 1) (mkdate 2024 12 31) /\
  0 < 400 /\ 0 <= 300 /\ 300 <= 400 /\
  exists e : electricity,
    electricity_block (mkdate 2024 1 1) (mkdate 2024 12 31) 400 300 = Ok e /\
    0 <= total_saved_won e.
Proof.
  split; [reflexivity|]. split; [reflexivity|]. split; [reflexivity|].
  split; [lra|]. split; [lra|]. split; [lra|].
  destruct (X2_electricity_savings_nonnegative
              (mkdate 2024 1 1) (mkdate 2024 12 31) 400 300)
    as (e & He & _ & _ & _ & _ & Hw & _);
    [reflexivity | reflexivity | reflexivity | lra | lra | lra |].
  exists e. split; assumption.
Defined.

(** X3.  The analyser divides by the usage before saving: it returns exactly
    when that usage is not zero, and raises ZeroDivisionError when it is
    (before any bill is computed). *)
Theorem X3_electricity_zero_division
    (start_d end_d : date) (before after : Q) :
  (before == 0 ->
   electricity_block start_d end_d before after = Raise ZeroDivisionError) /\
  (~ before == 0 ->
   exists e : electricity,
     electricity_block start_d end_d before after = Ok e).
Proof.
  split.
  - intros Hz. unfold electricity_block, py_div.
    apply Qeq_bool_iff in Hz. rewrite Hz. reflexivity.
  - intros Hnz.
    destruct (electricity_block_returns start_d end_d before after Hnz)
      as (bb & ba & _ & _ & Hblock).
    eexists. exact Hblock.
Qed.

Lemma X3_electricity_zero_division_witness :
  0 == 0 /\ ~ 400 == 0 /\
  electricity_block (mkdate 2024 1 1) (mkdate 2024 3 1) 0 0
  = Raise ZeroDivisionError /\
  exists e : electricity,
    electricity_block (mkdate 2024 1 1) (mkdate 2024 3 1) 400 300 = Ok e.
Proof.
  split; [reflexivity|]. split; [discriminate|].
  split.
  - apply (X3_electricity_zero_division (mkdate 2024 1 1) (mkdate 2024 3 1) 0 0).
    reflexivity.
  - apply (X3_electricity_zero_division (mkdate 2024 1 1) (mkdate 2024 3 1) 400 300).
    discriminate.
Defined.

(** ** The month count *)

(** X4.  Month counts chain: counting from a to b and from b to c counts
    the month of b twice, so count_months(a, b) + count_months(b, c) =
    count_months(a, c) + 1; in particular a range and its reverse sum to 2,
    whatever the three dates are. *)
Theorem X4_count_months_chain (a b c : date) :
  (count_months a b + count_months b c = count_months a c + 1)%Z /\
  (count_months a b + count_months b a = 2)%Z.
Proof.
  unfold count_months. split; lia.
Qed.

(** X5.  count_months does not check the order of its dates.  For valid
    dates with start after end it still returns: 1 when both lie in the same
    month of the same year, and a number <= 0 otherwise. *)
Theorem X5_count_months_reversed (start_d end_d : date)
    (Hs : valid_date start_d = true) (He : valid_date end_d = true)
    (Hgt : date_gtb start_d end_d = true) :
  (count_months start_d end_d <= 1)%Z /\
  (count_months start_d end_d = 1%Z <->
   year start_d = year end_d /\ month start_d = month end_d).
Proof.
  pose proof (valid_date_month _ Hs). pose proof (valid_date_month _ He).
  unfold date_gtb in Hgt.
  rewrite !orb_true_iff, !andb_true_iff, !orb_true_iff, !andb_true_iff in Hgt.
  rewrite !Z.ltb_lt, !Z.eqb_eq in Hgt.
  unfold count_months. lia.
Qed.

Lemma X5_count_months_reversed_witness :
  valid_date (mkdate 2024 1 20) = true /\
  valid_date (mkdate 2024 1 15) = true /\
  date_gtb (mkdate 2024 1 20) (mkdate 2024 1 15) = true /\
  count_months (mkdate 2024 1 20) (mkdate 2024 1 15) = 1%Z.
Proof.
  split; [reflexivity|]. split; [reflexivity|]. split; [reflexivity|].
  apply (X5_count_months_reversed (mkdate 2024 1 20) (mkdate 2024 1 15));
    [reflexivity | reflexivity | reflexivity |].
  split; reflexivity.
Defined.

(** ** The guards of the script *)

(** X6.  The script stops before any computation when the date range is
    reversed, with the message of line 63; when the dates are in order and
    the usage after saving exceeds the usage before, it stops with the
    message of line 73.  The date guard comes first. *)
Theorem X6_script_stops (i : inputs) :
  (date_gtb (start_date i) (end_date i) = true ->
   script i
   = Raise (StopException "❌ 종료일은 시작일보다 앞설 수 없습니다.")) /\
  (date_le (start_date i) (end_date i) ->
   usage_before i < usage_after i ->
   script i = Raise (StopException "절약 후 사용량이 절약 전보다 많습니다.")).
Proof.
  unfold script, stop_unless, date_le. split.
  - intros ->. reflexivity.
  - intros -> Hu. apply Qltb_true in Hu. rewrite Hu. reflexivity.
Qed.

Lemma X6_script_stops_witness :
  date_gtb (mkdate 2024 5 2) (mkdate 2024 5 1) = true /\
  script (mkinputs (mkdate 2024 5 2) (mkdate 2024 5 1) 1 2 false 0 0 0
            "자동차" 0 "전면 분리수거" true)
  = Raise (StopException "❌ 종료일은 시작일보다 앞설 수 없습니다.") /\
  date_le (mkdate 2024 5 1) (mkdate 2024 5 2) /\ 1 < 2 /\
  script (mkinputs (mkdate 2024 5 1) (mkdate 2024 5 2) 1 2 false 0 0 0
            "자동차" 0 "전면 분리수거" true)
  = Raise (StopException "절약 후 사용량이 절약 전보다 많습니다.").
Proof.
  split; [reflexivity|]. split.
  - apply (X6_script_stops
             (mkinputs (mkdate 2024 5 2) (mkdate 2024 5 1) 1 2 false 0 0 0
                "자동차" 0 "전면 분리수거" true)).
    reflexivity.
  - split; [reflexivity|]. split; [lra|].
    apply (X6_script_stops
             (mkinputs (mkdate 2024 5 1) (mkdate 2024 5 2) 1 2 false 0 0 0
                "자동차" 0 "전면 분리수거" true)); [reflexivity | simpl; lra].
Defined.

(** X7.  With every widget inside its range a run ends in one of two ways:
    it reaches the total, exactly when start <= end and after <= before, or
    it stops at one of the two guards.  No KeyError, IndexError or
    ZeroDivisionError can occur. *)
Theorem X7_script_outcomes (i : inputs) (Hw : widget_ranges i = true) :
  ((exists o : outputs, script i = Ok o) <->
   (date_le (start_date i) (end_date i) /\ usage_after i <= usage_before i)) /\
  ((exists o : outputs, script i = Ok o) \/
   (exists message : string, script i = Raise (StopException message))).
Proof.
  split.
  - split.
    + intros (o & Ho). apply script_Ok in Ho.
      destruct Ho as (Hd & Hu & _). split; assumption.
    + intros (Hd & Hu). apply (script_returns i Hw Hd Hu).
  - destruct (date_gtb (start_date i) (end_date i)) eqn:Ed.
    + right. eexists. unfold script, stop_unless. rewrite Ed. reflexivity.
    + destruct (Qltb (usage_before i) (usage_after i)) eqn:Eu.
      * right. eexists. unfold script, stop_unless. rewrite Ed, Eu. reflexivity.
      * left. apply Qltb_false in Eu. apply (script_returns i Hw Ed Eu).
Qed.

Lemma X7_script_outcomes_witness :
  widget_ranges default_inputs = true /\
  exists o : outputs, script default_inputs = Ok o.
Proof.
  split; [reflexivity|].
  apply (X7_script_outcomes default_inputs); [reflexivity|].
  split; [reflexivity | simpl; lra].
Defined.

(** ** The recycling grader *)

(** X9.  With the amounts the two widgets allow (waste > 0 and
    0 <= recycled <= waste) the rate lies in [0, 100] and the rate relative
    to the national average in [0, 143.27]; recycling everything is graded
    very high. *)
Theorem X9_recycling_rates_bounded (waste recycled : Q)
    (Hw : 0 < waste) (Hr0 : 0 <= recycled) (Hr1 : recycled <= waste) :
  exists r : recycling,
    recycling_block waste recycled = Some r /\
    0 <= recycling_rate r /\ recycling_rate r <= 100 /\
    0 <= relative_rate r /\ relative_rate r <= 143.27 /\
    (recycled == waste -> grade r = "매우 높음").
Proof.
  eexists. split; [apply (recycling_block_positive _ _ Hw)|].
  cbv zeta. cbn [recycling_rate relative_rate grade].
  assert (Hq : 0 <= recycled / waste /\ recycled / waste <= 1).
  { split.
    - apply Qle_shift_div_l; [exact Hw | lra].
    - apply Qle_shift_div_r; [exact Hw | lra]. }
  destruct Hq as (Hq0 & Hq1).
  set (q := recycled / waste) in *.
  assert (Hrel : q * 100 / NATIONAL_RATE * 100 == q * (10000 # 698) * 10).
  { unfold NATIONAL_RATE. field. }
  split; [lra|]. split; [lra|].
  split; [rewrite Hrel; lra|]. split; [rewrite Hrel; lra|].
  intros Heq.
  assert (Hone : q == 1).
  { unfold q. rewrite Heq. field. lra. }
  destruct (get_grade_bands (q * 100 / NATIONAL_RATE * 100)) as (_ & _ & _ & G4).
  rewrite G4; [reflexivity|]. rewrite Hrel, Hone. vm_compute. discriminate.
Qed.

Lemma X9_recycling_rates_bounded_witness :
  0 < 1000 /\ 0 <= 300 /\ 300 <= 1000 /\
  exists r : recycling,
    recycling_block 1000 300 = Some r /\ relative_rate r <= 143.27.
Proof.
  split; [lra|]. split; [lra|]. split; [lra|].
  destruct (X9_recycling_rates_bounded 1000 300)
    as (r & Hr & _ & _ & _ & Hrel & _); [lra | lra | lra |].
  exists r. split; assumption.
Defined.

(** ** The water simulator *)

(** X10.  Below the average 305 litres the saved CO2 is linear in the
    saving: each litre a day saved is worth 4.3435 kWh and 1.7374 kg CO2 a
    year, so the CO2 figure is positive, at most 529.907 kg (at 0 litres), and
    the trees are that figure over 21. *)
Theorem X10_water_saving_linear (d : Z) (Hd : (0 <= d < 305)%Z) :
  exists f : water_figures,
    water_branch (water_block d) = inl f /\
    total_energy_saved_kwh f == inject_Z (305 - d) * 4.3435 /\
    co2_reduced_kg f == inject_Z (305 - d) * 1.7374 /\
    0 < co2_reduced_kg f /\ co2_reduced_kg f <= 529.907 /\
    equivalent_trees f * 21 == co2_reduced_kg f.
Proof.
  assert (Hs : (0 < 305 - d)%Z) by lia.
  eexists. split; [apply (water_block_saving d Hs)|].
  cbv zeta. cbn [total_energy_saved_kwh co2_reduced_kg equivalent_trees].
  unfold ENERGY_TO_HEAT_1L_WATER, ENERGY_PER_CUBIC_METER_WATER_SUPPLY,
    CO2_PER_KWH, CO2_ABSORBED_PER_TREE_PER_YEAR.
  assert (Hin : inject_Z ((305 - d) * 365) == inject_Z (305 - d) * 365).
  { rewrite inject_Z_mult. reflexivity. }
  assert (H1 : 1 <= inject_Z (305 - d)) by (apply inject_Z_ge_1; lia).
  assert (H2 : inject_Z (305 - d) <= 305).
  { change 305 with (inject_Z 305). rewrite <- Zle_Qle. lia. }
  rewrite !Hin.
  set (s := inject_Z (305 - d)) in *. clearbody s.
  assert (E : (s * 365 * 0.40 * 0.029 + s * 365 * 0.60 / 1000 * 0.5)
              == s * 4.3435) by field.
  assert (C : (s * 365 * 0.40 * 0.029 + s * 365 * 0.60 / 1000 * 0.5) * 0.4
              == s * 1.7374) by field.
  split; [exact E|]. split; [exact C|].
  split; [rewrite C; lra|]. split; [rewrite C; lra|].
  field.
Qed.

Lemma X10_water_saving_linear_witness :
  (0 <= 100 < 305)%Z /\
  exists f : water_figures,
    water_branch (water_block 100) = inl f /\
    co2_reduced_kg f == inject_Z (305 - 100) * 1.7374.
Proof.
  split; [lia|].
  destruct (X10_water_saving_linear 100) as (f & Hf & _ & Hc & _); [lia|].
  exists f. split; assumption.
Defined.

(** X11.  The water term of the total is not the saved CO2 of the water
    simulator but 0.01 kg per litre used a day, and it is counted only when
    the usage is below 305 litres: from 305 litres on it is 0, so within the
    slider's range the term never exceeds 3.04 kg. *)
Theorem X11_water_term_of_total (i : inputs) (o : outputs)
    (Hrun : script i = Ok o)
    (Hd : (0 <= user_daily_water_usage i <= 500)%Z) :
  ((user_daily_water_usage i < 305)%Z ->
   out_total_co2_water o == inject_Z (user_daily_water_usage i) * 0.01) /\
  ((305 <= user_daily_water_usage i)%Z -> out_total_co2_water o == 0) /\
  0 <= out_total_co2_water o /\ out_total_co2_water o <= 3.04.
Proof.
  rewrite (script_water_term i o Hrun).
  set (d := user_daily_water_usage i) in *.
  destruct (305 - d >? 0)%Z eqn:E; rewrite Z.gtb_ltb in E.
  - apply Z.ltb_lt in E.
    assert (H0 : 0 <= inject_Z d).
    { change 0 with (inject_Z 0). rewrite <- Zle_Qle. lia. }
    assert (H1 : inject_Z d <= 304).
    { change 304 with (inject_Z 304). rewrite <- Zle_Qle. lia. }
    repeat split; intros; try reflexivity; try lia; lra.
  - apply Z.ltb_ge in E.
    repeat split; intros; try reflexivity; try lia; lra.
Qed.

Lemma X11_water_term_of_total_witness :
  exists o : outputs,
    script default_inputs = Ok o /\
    (0 <= user_daily_water_usage default_inputs <= 500)%Z /\
    out_total_co2_water o <= 3.04.
Proof.
  assert (Hrun : exists o : outputs, script default_inputs = Ok o)
    by (eexists; vm_compute; reflexivity).
  destruct Hrun as (o & Ho).
  exists o. split; [exact Ho|]. split; [simpl; lia|].
  apply (X11_water_term_of_total default_inputs o Ho). simpl; lia.
Defined.

(** ** Transport *)

Lemma dict_get_missing {V : Type} (d : dict V) (key : string) :
  ~ In key (map fst d) -> dict_get d key = Raise (KeyError key).
Proof.
  induction d as [|[k v] rest IH]; simpl; intros Hn; [reflexivity|].
  destruct (String.eqb k key) eqn:E.
  - apply String.eqb_eq in E. exfalso. apply Hn. left. exact E.
  - apply IH. intros Hin. apply Hn. right. exact Hin.
Qed.

Lemma dict_get_present {V : Type} (d : dict V) (key : string) :
  In key (map fst d) -> exists v : V, dict_get d key = Ok v /\ In (key, v) d.
Proof.
  induction d as [|[k v] rest IH]; simpl; intros Hin; [contradiction|].
  destruct (String.eqb k key) eqn:E.
  - apply String.eqb_eq in E. subst k. exists v. split; [reflexivity | left; reflexivity].
  - destruct Hin as [Hk | Hin].
    + subst k. rewrite String.eqb_refl in E. discriminate.
    + destruct (IH Hin) as (w & Hw & Hin'). exists w. split; [exact Hw | right; exact Hin'].
Qed.

(** X12.  The transport block looks the mode up in the table of factors:
    for one of the four modes of the radio button it returns, and for any
    other string it raises KeyError with that string, whatever the distance. *)
Theorem X12_transport_unknown_mode (mode : string) (km : Q) :
  (In mode transport_modes -> exists t : transport, transport_block mode km = Ok t) /\
  (~ In mode transport_modes -> transport_block mode km = Raise (KeyError mode)).
Proof.
  unfold transport_block. split.
  - intros Hin.
    destruct (dict_get_present emission_factors mode Hin) as (f & -> & _).
    eexists. reflexivity.
  - intros Hn. rewrite (dict_get_missing emission_factors mode Hn). reflexivity.
Qed.

Lemma X12_transport_unknown_mode_witness :
  In "버스" transport_modes /\ ~ In "기차" transport_modes /\
  (exists t : transport, transport_block "버스" 3 = Ok t) /\
  transport_block "기차" 3 = Raise (KeyError "기차").
Proof.
  assert (Hin : In "버스" transport_modes) by (simpl; tauto).
  assert (Hn : ~ In "기차" transport_modes).
  { simpl. intros [H | [H | [H | [H | []]]]]; discriminate. }
  split; [exact Hin|]. split; [exact Hn|].
  split.
  - apply (X12_transport_unknown_mode "버스" 3). exact Hin.
  - apply (X12_transport_unknown_mode "기차" 3). exact Hn.
Defined.

(** X13.  For a mode of the radio button and a distance km >= 0 the daily
    figure lies between 0.056*km and 0.170*km and the annual figure between
    20.44*km and 62.05*km; both are non-negative, and zero at km = 0. *)
Theorem X13_transport_bounds (mode : string) (km : Q)
    (Hmode : In mode transport_modes) (Hkm : 0 <= km) :
  exists t : transport,
    transport_block mode km = Ok t /\
    0.056 * km <= daily_co2 t /\ daily_co2 t <= 0.170 * km /\
    20.44 * km <= annual_co2 t /\ annual_co2 t <= 62.05 * km /\
    0 <= annual_co2 t /\
    (km == 0 -> annual_co2 t == 0).
Proof.
  unfold transport_block. simpl in Hmode.
  destruct Hmode as [<- | [<- | [<- | [<- | []]]]];
    (eexists; split; [reflexivity|]);
    cbn [daily_co2 annual_co2]; repeat split; intros; lra.
Qed.

Lemma X13_transport_bounds_witness :
  In "지하철" transport_modes /\ 0 <= 10 /\
  exists t : transport,
    transport_block "지하철" 10 = Ok t /\ annual_co2 t <= 62.05 * 10.
Proof.
  split; [simpl; tauto|]. split; [lra|].
  destruct (X13_transport_bounds "지하철" 10)
    as (t & Ht & _ & _ & _ & Hhi & _); [simpl; tauto | lra |].
  exists t. split; assumption.
Defined.

(** ** The total within the ranges of the widgets *)

Lemma widget_ranges_spec (i : inputs) :
  widget_ranges i = true ->
  valid_date (start_date i) = true /\ valid_date (end_date i) = true /\
  1 <= usage_before i /\ 0 <= usage_after i /\
  300 <= waste_amount i /\
  0 <= recycling_amount i /\ recycling_amount i <= waste_amount i /\
  (0 <= user_daily_water_usage i <= 500)%Z /\
  In (transport_mode i) transport_modes /\
  0 <= distance i /\
  In (waste_mode i) (map fst emission).
Proof.
  unfold widget_ranges. rewrite !andb_true_iff, !Qleb_true, !Z.leb_le.
  intros (((((((((((H1 & H2) & H3) & H4) & H5) & H6) & H7) & H8) & H9) & H10)
           & H11) & H12).
  assert (Hin : forall x l, existsb (String.eqb x) l = true -> In x l).
  { intros x l H. apply existsb_exists in H. destruct H as (y & Hy & E).
    apply String.eqb_eq in E. subst y. exact Hy. }
  repeat split; auto.
Qed.

(** Within the ranges of the widgets every term of the total is
    non-negative and the waste term is one of the two table values. *)
Lemma script_terms (i : inputs) (o : outputs) :
  widget_ranges i = true ->
  script i = Ok o ->
  0 <= out_total_co2_electricity o /\
  0 <= out_total_co2_water o /\
  0 <= out_total_co2_transport o /\
  (out_tresh_co2 o = 203%Z \/ out_tresh_co2 o = 193%Z) /\
  out_fixed_emission_value o = fixed_emission_value (add_fixed_emission i) /\
  out_total_annual_co2_kg o
  == out_total_co2_electricity o + out_total_co2_water o
     + out_total_co2_transport o + inject_Z (out_tresh_co2 o)
     + inject_Z (out_fixed_emission_value o) /\
  out_delta_kg o == 4800 - out_total_annual_co2_kg o.
Proof.
  intros Hw Hrun.
  destruct (widget_ranges_spec i Hw)
    as (Vs & Ve & Hb & Ha & _ & _ & _ & Hd & Hm & Hkm & _).
  pose proof (script_water_term i o Hrun) as Hwater.
  destruct (script_Ok i o Hrun)
    as (Hdate & Hu & _ & _ & Ht & Hz & He & Het & _ & Htt & Hf & Htot & Hdel).
  split; [|split; [|split; [|split; [|split; [exact Hf|split]]]]].
  - rewrite Het.
    destruct (electricity_button i).
    + destruct He as (e & Hblock & ->). cbn [option_map total_co2_electricity].
      assert (Hnz : ~ usage_before i == 0) by lra.
      destruct (electricity_block_returns (start_date i) (end_date i)
                  (usage_before i) (usage_after i) Hnz)
        as (bb & ba & _ & _ & Hblock').
      rewrite Hblock in Hblock'. injection Hblock' as ->.
      cbv zeta. cbn [co2_after_kg].
      pose proof (inject_Z_ge_1 _ (count_months_ge_1 _ _ Vs Ve Hdate)) as Hm1.
      set (m := inject_Z (count_months (start_date i) (end_date i))) in *.
      clearbody m. unfold CO2_EMISSION_FACTOR_G_PER_KWH.
      assert (Hdiv : forall x, x / 1000 == x * 0.001) by (intros; field).
      rewrite Hdiv. unfold inject_Z. nra.
    + rewrite He. cbn. lra.
  - rewrite Hwater.
    destruct (305 - user_daily_water_usage i >? 0)%Z; [|lra].
    assert (H0 : 0 <= inject_Z (user_daily_water_usage i)).
    { change 0 with (inject_Z 0). rewrite <- Zle_Qle. lia. }
    lra.
  - rewrite Htt. unfold transport_block in Ht. simpl in Hm.
    destruct Hm as [E | [E | [E | [E | []]]]];
      rewrite <- E in Ht; simpl in Ht; injection Ht as <-;
      cbn [annual_co2]; lra.
  - unfold emission in Hz. cbn [dict_get] in Hz.
    destruct (String.eqb "전면 분리수거" (waste_mode i)).
    + injection Hz as <-. left; reflexivity.
    + destruct (String.eqb "부분 혼합 수거" (waste_mode i)).
      * injection Hz as <-. right; reflexivity.
      * discriminate.
  - rewrite Htot. unfold total_annual_co2_kg. reflexivity.
  - rewrite Hdel. unfold delta_kg, World_AVERAGE_CO2_KG, inject_Z. lra.
Qed.

(** X14.  With every widget inside its range, a run that reaches the total
    has total >= 193 kg (>= 1493 kg with the fixed emission included), so
    delta <= 4607 kg, and total + delta is always the world average 4800. *)
Theorem X14_total_bounds (i : inputs) (o : outputs)
    (Hw : widget_ranges i = true) (Hrun : script i = Ok o) :
  193 + inject_Z (fixed_emission_value (add_fixed_emission i))
    <= out_total_annual_co2_kg o /\
  193 <= out_total_annual_co2_kg o /\
  out_delta_kg o <= 4607 /\
  out_total_annual_co2_kg o + out_delta_kg o == 4800.
Proof.
  destruct (script_terms i o Hw Hrun)
    as (He & Hwt & Ht & Hz & Hf & Htot & Hdel).
  rewrite Hf in Htot.
  assert (Hz' : 193 <= inject_Z (out_tresh_co2 o)).
  { destruct Hz as [-> | ->]; unfold inject_Z; lra. }
  assert (Hfx : 0 <= inject_Z (fixed_emission_value (add_fixed_emission i))).
  { destruct (add_fixed_emission i); unfold fixed_emission_value, inject_Z; lra. }
  repeat split; lra.
Qed.

Lemma X14_total_bounds_witness :
  exists o : outputs,
    widget_ranges default_inputs = true /\
    script default_inputs = Ok o /\
    out_delta_kg o <= 4607.
Proof.
  assert (Hrun : exists o : outputs, script default_inputs = Ok o)
    by (eexists; vm_compute; reflexivity).
  destruct Hrun as (o & Ho).
  exists o. split; [reflexivity|]. split; [exact Ho|].
  apply (X14_total_bounds default_inputs o); [reflexivity | exact Ho].
Defined.

(** X15.  The toggle of line 223 shifts the result and touches nothing
    else: between two runs that differ only in the toggle, the total with the
    fixed emission is the other total plus 1300 and delta is 1300 lower, while
    the electricity, water, transport and waste terms are the same. *)
Theorem X15_fixed_emission_toggle (i : inputs) (o1 o0 : outputs)
    (Hon : script (with_fixed_emission i true) = Ok o1)
    (Hoff : script (with_fixed_emission i false) = Ok o0) :
  out_total_annual_co2_kg o1 == out_total_annual_co2_kg o0 + 1300 /\
  out_delta_kg o1 == out_delta_kg o0 - 1300 /\
  out_total_co2_electricity o1 = out_total_co2_electricity o0 /\
  out_total_co2_water o1 = out_total_co2_water o0 /\
  out_total_co2_transport o1 = out_total_co2_transport o0 /\
  out_tresh_co2 o1 = out_tresh_co2 o0.
Proof.
  apply script_Ok in Hon. apply script_Ok in Hoff.
  cbn [with_fixed_emission start_date end_date usage_before usage_after
       electricity_button waste_amount recycling_amount
       user_daily_water_usage transport_mode distance waste_mode
       add_fixed_emission] in Hon, Hoff.
  destruct Hon as (_ & _ & W1 & _ & T1 & Z1 & E1 & Et1 & Wt1 & Tt1 & F1 & Tot1 & D1).
  destruct Hoff as (_ & _ & W0 & _ & T0 & Z0 & E0 & Et0 & Wt0 & Tt0 & F0 & Tot0 & D0).
  assert (Ht : out_transport o1 = out_transport o0).
  { rewrite T1 in T0. injection T0 as ->. reflexivity. }
  assert (Hz : out_tresh_co2 o1 = out_tresh_co2 o0).
  { rewrite Z1 in Z0. injection Z0 as ->. reflexivity. }
  assert (He : out_electricity o1 = out_electricity o0).
  { destruct (electricity_button i).
    - destruct E1 as (e1 & B1 & ->). destruct E0 as (e0 & B0 & ->).
      rewrite B1 in B0. injection B0 as ->. reflexivity.
    - rewrite E1, E0. reflexivity. }
  assert (Hel : out_total_co2_electricity o1 = out_total_co2_electricity o0)
    by (rewrite Et1, Et0, He; reflexivity).
  assert (Hwa : out_total_co2_water o1 = out_total_co2_water o0)
    by (rewrite Wt1, Wt0, W1, W0; reflexivity).
  assert (Htr : out_total_co2_transport o1 = out_total_co2_transport o0)
    by (rewrite Tt1, Tt0, Ht; reflexivity).
  assert (Htot : out_total_annual_co2_kg o1 == out_total_annual_co2_kg o0 + 1300).
  { rewrite Tot1, Tot0, F1, F0, Hel, Hwa, Htr, Hz.
    unfold total_annual_co2_kg, fixed_emission_value, inject_Z. lra. }
  split; [exact Htot|].
  split; [rewrite D1, D0; unfold delta_kg; lra|].
  repeat split; assumption.
Qed.

Lemma X15_fixed_emission_toggle_witness :
  exists o1 o0 : outputs,
    script (with_fixed_emission default_inputs true) = Ok o1 /\
    script (with_fixed_emission default_inputs false) = Ok o0 /\
    out_total_annual_co2_kg o1 == out_total_annual_co2_kg o0 + 1300.
Proof.
  assert (H1 : exists o, script (with_fixed_emission default_inputs true) = Ok o)
    by (eexists; vm_compute; reflexivity).
  assert (H0 : exists o, script (with_fixed_emission default_inputs false) = Ok o)
    by (eexists; vm_compute; reflexivity).
  destruct H1 as (o1 & H1). destruct H0 as (o0 & H0).
  exists o1, o0. split; [exact H1|]. split; [exact H0|].
  apply (X15_fixed_emission_toggle default_inputs o1 o0 H1 H0).
Defined.

(** ** The summary and the penguin pictures *)

(** X16.  The text under the summary button never shows a negative number:
    for delta > 0 it is the success text with delta, otherwise the warning
    text with -delta.  The penguin metric shows delta / 5000 as it is, so it
    is negative whenever delta < 0, while the local penguins_saved of line
    247, max(delta, 0) / 100, is never negative and is not shown. *)
Theorem X16_summary_message (total delta : Q) :
  let s := carbon_summary_block total delta in
  (0 < delta ->
   exists body : fstring,
     summary_message s = inl body /\ fs_number body = delta) /\
  (delta <= 0 ->
   exists body : fstring,
     summary_message s = inr body /\ fs_number body == - delta /\
     0 <= fs_number body) /\
  fs_number (metric_body (summary_penguins s)) == delta / 5000 /\
  (delta < 0 -> fs_number (metric_body (summary_penguins s)) < 0) /\
  0 <= summary_penguins_saved s /\
  (0 <= delta ->
   summary_penguins_saved s
   == 50 * fs_number (metric_body (summary_penguins s))).
Proof.
  cbv zeta. unfold carbon_summary_block.
  cbn [summary_message summary_penguins summary_penguins_saved
       metric_body fs_number].
  assert (Hdiv : forall x, x / 5000 == x * (1 # 5000)) by (intros; field).
  assert (Hdiv' : forall x, x / inject_Z CO2_SAVING_PER_PENGUIN_KG == x * (1 # 100))
    by (intros; unfold CO2_SAVING_PER_PENGUIN_KG; field).
  split; [|split; [|split; [reflexivity|split; [|split]]]].
  - intros Hpos. apply Qltb_true in Hpos. rewrite Hpos.
    eexists. split; reflexivity.
  - intros Hneg. pose proof Hneg as Hneg'. apply Qltb_false in Hneg. rewrite Hneg.
    eexists. split; [reflexivity|]. cbn [fs_number]. unfold py_abs.
    case_cmp (Qltb delta 0); split; lra.
  - intros Hneg. rewrite Hdiv. lra.
  - rewrite Hdiv'. unfold py_max. case_cmp (Qltb delta 0); lra.
  - intros Hpos. rewrite Hdiv', Hdiv. unfold py_max.
    case_cmp (Qltb delta 0); lra.
Qed.

Lemma X16_summary_message_witness :
  -200 < 0 /\
  fs_number (metric_body (summary_penguins (carbon_summary_block 5000 (-200)))) < 0.
Proof.
  split; [lra|].
  apply (X16_summary_message 5000 (-200)). lra.
Defined.

Lemma py_int_nonneg (a : Q) :
  0 <= a -> py_int a = Qfloor a /\ (0 <= Qfloor a)%Z.
Proof.
  intros Ha. unfold py_int.
  assert (E : Qltb a 0 = false) by (apply Qltb_false; exact Ha).
  rewrite E. split; [reflexivity|].
  change 0%Z with (Qfloor (inject_Z 0)). apply Qfloor_resp_le. exact Ha.
Qed.

Lemma range_succ (n : Z) : (0 <= n)%Z -> range (n + 1) = (range n ++ [n])%list.
Proof.
  intros Hn. unfold range.
  replace (Z.to_nat (n + 1)) with (S (Z.to_nat n)) by lia.
  rewrite seq_S, map_app. simpl. rewrite Z2Nat.id by exact Hn. reflexivity.
Qed.

(** The ceiling is the floor for a whole number and the floor plus one
    otherwise. *)
Lemma Qceiling_of_floor (p : Q) :
  (inject_Z (Qfloor p) == p -> Qceiling p = Qfloor p) /\
  (inject_Z (Qfloor p) < p -> Qceiling p = (Qfloor p + 1)%Z).
Proof.
  pose proof (Qfloor_le p) as F1. pose proof (Qlt_floor p) as F2.
  pose proof (Qle_ceiling p) as C1. pose proof (Qceiling_lt p) as C2.
  split; intros H.
  - assert (A : (Qceiling p - 1 < Qfloor p)%Z).
    { rewrite Zlt_Qlt. rewrite H. exact C2. }
    assert (B : (Qfloor p <= Qceiling p)%Z).
    { rewrite Zle_Qle. rewrite H. exact C1. }
    lia.
  - assert (A : (Qfloor p < Qceiling p)%Z).
    { rewrite Zlt_Qlt. apply (Qlt_le_trans _ p); assumption. }
    assert (B : (Qceiling p - 1 < Qfloor p + 1)%Z).
    { rewrite Zlt_Qlt. apply (Qlt_trans _ p); assumption. }
    lia.
Qed.

(** X17.  For a positive number p of penguins and a picture of height
    H >= 0, the second button places ceiling(p) pictures, the k-th of them in
    column k mod 5 (five to a row, left to right); every picture keeps the
    width of the original, is shown 300 wide, and has a height between 0 and
    H, the last one being cropped when p is not whole.  The caption carries p
    itself. *)
Theorem X17_penguin_layout (img : image) (p : Q)
    (Hp : 0 < p) (Hh : (0 <= img_height img)%Z) :
  exists (pics : list placed) (caption : fstring),
    penguin_block img p = inl (pics, caption) /\
    map column pics = map (fun k => (k mod 5)%Z) (range (Qceiling p)) /\
    Forall (fun x =>
              (0 <= column x < 5)%Z /\
              img_width (picture x) = img_width img /\
              (0 <= img_height (picture x) <= img_height img)%Z /\
              shown_width x = 300%Z) pics /\
    fs_number caption = p.
Proof.
  unfold penguin_block.
  assert (E : Qltb 0 p = true) by (apply Qltb_true; exact Hp).
  rewrite E.
  destruct (py_int_nonneg p (Qlt_le_weak _ _ Hp)) as (-> & Hn).
  pose proof (Qfloor_le p) as F1. pose proof (Qlt_floor p) as F2.
  destruct (Qceiling_of_floor p) as (Cw & Cp).
  set (n := Qfloor p) in *.
  assert (Hwhole :
    Forall (fun x =>
              (0 <= column x < 5)%Z /\
              img_width (picture x) = img_width img /\
              (0 <= img_height (picture x) <= img_height img)%Z /\
              shown_width x = 300%Z)
      (map (fun idx => mkplaced (idx mod 5) img 300) (range n))).
  { apply Forall_forall. intros x Hx. apply in_map_iff in Hx.
    destruct Hx as (k & <- & _). cbn [column picture shown_width].
    pose proof (Z.mod_pos_bound k 5). repeat split; lia. }
  cbv zeta.
  case_cmp (Qltb 0 (p - inject_Z n)).
  - do 2 eexists. split; [reflexivity|].
    assert (Hlt : inject_Z n < p) by lra.
    rewrite (Cp Hlt), (range_succ n Hn), !map_app, map_map.
    cbn [map column]. split; [reflexivity|]. split; [|reflexivity].
    apply Forall_app. split; [exact Hwhole|].
    constructor; [|constructor].
    cbn [column picture shown_width crop img_width img_height].
    assert (Hfrac : p - inject_Z n <= 1).
    { rewrite inject_Z_plus in F2. change (inject_Z 1) with 1 in F2. lra. }
    assert (HH : 0 <= inject_Z (img_height img)).
    { change 0 with (inject_Z 0). rewrite <- Zle_Qle. exact Hh. }
    assert (Hx0 : 0 <= inject_Z (img_height img) * (p - inject_Z n)) by nra.
    assert (Hx1 : inject_Z (img_height img) * (p - inject_Z n)
                  <= inject_Z (img_height img)) by nra.
    destruct (py_int_nonneg _ Hx0) as (-> & Hf0).
    apply Qfloor_resp_le in Hx1. rewrite Qfloor_Z in Hx1.
    pose proof (Z.mod_pos_bound n 5). repeat split; lia.
  - do 2 eexists. split; [reflexivity|].
    assert (Heq : inject_Z n == p) by lra.
    rewrite (Cw Heq), app_nil_r, map_map.
    cbn [column]. split; [reflexivity|]. split; [exact Hwhole | reflexivity].
Qed.

Lemma X17_penguin_layout_witness :
  0 < 7.25 /\ (0 <= img_height (mkimage 600 800))%Z /\
  exists (pics : list placed) (caption : fstring),
    penguin_block (mkimage 600 800) 7.25 = inl (pics, caption) /\
    map column pics = [0; 1; 2; 3; 4; 0; 1; 2]%Z.
Proof.
  split; [lra|]. split; [simpl; lia|].
  destruct (X17_penguin_layout (mkimage 600 800) 7.25)
    as (pics & caption & Hb & Hc & _); [lra | simpl; lia |].
  exists pics, caption. split; [exact Hb|].
  rewrite Hc. reflexivity.
Defined.

(** X18.  Within the ranges of the widgets the page never shows a whole
    penguin.  After a run that reaches the total, penguins_saved =
    delta / 5000 is below 1 (at most 0.9214): for delta > 0 the second button
    shows exactly one cropped picture, in the first column, lower than the
    original; for delta <= 0 it shows only the text of st.info. *)
Theorem X18_never_a_whole_penguin (i : inputs) (o : outputs) (img : image)
    (Hw : widget_ranges i = true) (Hrun : script i = Ok o)
    (Hh : (0 < img_height img)%Z) :
  penguins_saved (out_delta_kg o) <= 0.9214 /\
  (0 < out_delta_kg o ->
   exists (h : Z) (caption : fstring),
     penguin_block img (penguins_saved (out_delta_kg o))
     = inl ([mkplaced 0 (mkimage (img_width img) h) 300], caption) /\
     (0 <= h < img_height img)%Z) /\
  (out_delta_kg o <= 0 ->
   penguin_block img (penguins_saved (out_delta_kg o))
   = inr "아직 살린 펭귄이 없습니다. 탄소를 더 절감해보세요!").
Proof.
  destruct (script_terms i o Hw Hrun)
    as (He & Hwt & Ht & Hz & Hf & Htot & Hdel).
  assert (Hz' : 193 <= inject_Z (out_tresh_co2 o)).
  { destruct Hz as [-> | ->]; unfold inject_Z; lra. }
  assert (Hfx : 0 <= inject_Z (out_fixed_emission_value o)).
  { rewrite Hf. destruct (add_fixed_emission i);
      unfold fixed_emission_value, inject_Z; lra. }
  assert (Hdelta : out_delta_kg o <= 4607) by lra.
  assert (Hdiv : penguins_saved (out_delta_kg o)
                 == out_delta_kg o * (1 # 5000))
    by (unfold penguins_saved; field).
  set (p := penguins_saved (out_delta_kg o)) in *.
  split; [lra|]. split.
  - intros Hpos.
    assert (Hp0 : 0 < p) by lra. assert (Hp1 : p < 1) by lra.
    unfold penguin_block.
    assert (E : Qltb 0 p = true) by (apply Qltb_true; exact Hp0).
    rewrite E.
    destruct (py_int_nonneg p (Qlt_le_weak _ _ Hp0)) as (-> & Hn).
    assert (Hfl : Qfloor p = 0%Z).
    { pose proof (Qfloor_le p) as F1.
      assert (A : (Qfloor p < 1)%Z).
      { rewrite Zlt_Qlt. apply (Qle_lt_trans _ p); [exact F1 | exact Hp1]. }
      lia. }
    rewrite Hfl. cbv zeta.
    assert (E2 : Qltb 0 (p - inject_Z 0) = true).
    { apply Qltb_true. unfold inject_Z. lra. }
    rewrite E2. cbn [range Z.to_nat seq map app crop].
    assert (HH : 1 <= inject_Z (img_height img)) by (apply inject_Z_ge_1; lia).
    assert (Hx0 : 0 <= inject_Z (img_height img) * (p - inject_Z 0)).
    { unfold inject_Z at 2. nra. }
    assert (Hx1 : inject_Z (img_height img) * (p - inject_Z 0)
                  < inject_Z (img_height img)).
    { unfold inject_Z at 2. nra. }
    destruct (py_int_nonneg _ Hx0) as (-> & Hf0).
    do 2 eexists. split.
    + rewrite !Z.sub_0_r. reflexivity.
    + split; [exact Hf0|].
      rewrite Zlt_Qlt.
      apply (Qle_lt_trans _ (inject_Z (img_height img) * (p - inject_Z 0)));
        [apply Qfloor_le | exact Hx1].
  - intros Hneg. unfold penguin_block.
    assert (E : Qltb 0 p = false) by (apply Qltb_false; lra).
    rewrite E. reflexivity.
Qed.

Lemma X18_never_a_whole_penguin_witness :
  exists o : outputs,
    widget_ranges default_inputs = true /\
    script default_inputs = Ok o /\
    (0 < img_height (mkimage 600 800))%Z /\
    penguins_saved (out_delta_kg o) <= 0.9214.
Proof.
  assert (Hrun : exists o : outputs, script default_inputs = Ok o)
    by (eexists; vm_compute; reflexivity).
  destruct Hrun as (o & Ho).
  exists o. split; [reflexivity|]. split; [exact Ho|]. split; [simpl; lia|].
  apply (X18_never_a_whole_penguin default_inputs o (mkimage 600 800));
    [reflexivity | exact Ho | simpl; lia].
Defined.

(** ** What enters the total *)

(** X19.  Electricity enters the total only on the run in which the
    electricity button was pressed: then the term is the emission of the
    usage after saving over the whole date range,
    usage_after * 409 * months / 1000; on every other run it is 0. *)
Theorem X19_electricity_term_of_total (i : inputs) (o : outputs)
    (Hrun : script i = Ok o) :
  (electricity_button i = true ->
   out_total_co2_electricity o
   == usage_after i * 409
      * inject_Z (count_months (start_date i) (end_date i)) / 1000) /\
  (electricity_button i = false ->
   out_electricity o = None /\ out_total_co2_electricity o == 0).
Proof.
  destruct (script_Ok i o Hrun)
    as (_ & _ & _ & _ & _ & _ & He & Het & _).
  rewrite Het. split; intros Hb; rewrite Hb in He.
  - destruct He as (e & Hblock & ->). cbn [option_map total_co2_electricity].
    destruct (Qeq_bool (usage_before i) 0) eqn:Eb.
    + unfold electricity_block, py_div in Hblock. rewrite Eb in Hblock.
      discriminate.
    + apply Qeq_bool_neq in Eb.
      destruct (electricity_block_returns (start_date i) (end_date i)
                  (usage_before i) (usage_after i) Eb)
        as (bb & ba & _ & _ & Hblock').
      rewrite Hblock in Hblock'. injection Hblock' as ->.
      cbv zeta. cbn [co2_after_kg].
      unfold CO2_EMISSION_FACTOR_G_PER_KWH. reflexivity.
  - rewrite He. split; reflexivity.
Qed.

Lemma X19_electricity_term_of_total_witness :
  exists o : outputs,
    script default_inputs = Ok o /\
    electricity_button default_inputs = true /\
    out_total_co2_electricity o == 1595.1.
Proof.
  assert (Hrun : exists o : outputs, script default_inputs = Ok o)
    by (eexists; vm_compute; reflexivity).
  destruct Hrun as (o & Ho).
  exists o. split; [exact Ho|]. split; [reflexivity|].
  destruct (X19_electricity_term_of_total default_inputs o Ho) as (Hon & _).
  rewrite (Hon eq_refl). reflexivity.
Defined.

(** X20.  The recycling grader does not feed the total: two runs that
    differ only in the waste and recycled amounts reach the same total and
    the same delta. *)
Theorem X20_recycling_not_in_total
    (i : inputs) (waste recycled : Q) (o o' : outputs)
    (Hrun : script i = Ok o)
    (Hrun' : script (with_recycling i waste recycled) = Ok o') :
  out_total_annual_co2_kg o' = out_total_annual_co2_kg o /\
  out_delta_kg o' = out_delta_kg o /\
  out_recycling o' = recycling_block waste recycled.
Proof.
  apply script_Ok in Hrun. apply script_Ok in Hrun'.
  cbn [with_recycling start_date end_date usage_before usage_after
       electricity_button waste_amount recycling_amount
       user_daily_water_usage transport_mode distance waste_mode
       add_fixed_emission] in Hrun'.
  destruct Hrun as (_ & _ & W0 & _ & T0 & Z0 & E0 & Et0 & Wt0 & Tt0 & F0 & Tot0 & D0).
  destruct Hrun' as (_ & _ & W1 & R1 & T1 & Z1 & E1 & Et1 & Wt1 & Tt1 & F1 & Tot1 & D1).
  assert (Ht : out_transport o' = out_transport o).
  { rewrite T0 in T1. injection T1 as ->. reflexivity. }
  assert (Hz : out_tresh_co2 o' = out_tresh_co2 o).
  { rewrite Z0 in Z1. injection Z1 as ->. reflexivity. }
  assert (He : out_electricity o' = out_electricity o).
  { destruct (electricity_button i).
    - destruct E1 as (e1 & B1 & ->). destruct E0 as (e0 & B0 & ->).
      rewrite B0 in B1. injection B1 as ->. reflexivity.
    - rewrite E1, E0. reflexivity. }
  assert (Htot : out_total_annual_co2_kg o' = out_total_annual_co2_kg o).
  { rewrite Tot1, Tot0, Et1, Et0, Wt1, Wt0, Tt1, Tt0, F1, F0, W1, W0, He, Ht, Hz.
    reflexivity. }
  split; [exact Htot|]. split; [rewrite D1, D0, Htot; reflexivity | exact R1].
Qed.

Lemma X20_recycling_not_in_total_witness :
  exists o o' : outputs,
    script default_inputs = Ok o /\
    script (with_recycling default_inputs 500 450) = Ok o' /\
    out_total_annual_co2_kg o' = out_total_annual_co2_kg o.
Proof.
  assert (H0 : exists o, script default_inputs = Ok o)
    by (eexists; vm_compute; reflexivity).
  assert (H1 : exists o, script (with_recycling default_inputs 500 450) = Ok o)
    by (eexists; vm_compute; reflexivity).
  destruct H0 as (o & H0). destruct H1 as (o' & H1).
  exists o, o'. split; [exact H0|]. split; [exact H1|].
  apply (X20_recycling_not_in_total default_inputs 500 450 o o' H0 H1).
Defined.
